(** * PyGeoStudio, [Analysis.py]: time increments and analysis entity

    A shallow embedding of the classes [TimeIncrements] and [Analysis] of
    [src/PyGeoStudio/Analysis.py].

    - Python dictionaries ([self.data], an element's [attrib], one timestep
      record) are insertion-ordered association lists with unique keys.
    - Methods that mutate [self.data] are computations in a state-and-exception
      monad over the store, so that what was written before an exception is
      raised stays visible.
    - Numbers are kept behind an interface ([PyNum]): the subtraction, the
      order used by the sort, [str], [float] and [int], what a numpy array
      holds and what numpy accepts as an operand.  The laws used are that
      [float (str x)] is [x] as a float and that [int] reads the decimal
      text of a length.  Integer times, held by numpy as [int64], are the
      instance the examples run on.
    - [np.argsort] is a library call; it enters as a parameter constrained by
      what numpy documents for the default sort kind: the result is a
      permutation of the indices that puts the values in ascending order. *)

From Stdlib Require Import List String Ascii Bool Arith ZArith Lia.
From Stdlib Require Import Permutation Sorted.
From Stdlib Require Import Decimal DecimalString DecimalZ DecimalNat DecimalPos.
Import ListNotations.
Open Scope string_scope.
Open Scope list_scope.

Set Implicit Arguments.

(** ** Exceptions *)

(** The Python exceptions the two classes can raise.  [Unsupported] is not a
    Python exception: the embedding stops with it where the source would go
    on with a value that the types below do not describe: a list stored
    under [Start], which numpy would broadcast; a string stored under
    [TimeSteps], whose characters [__write__] would assign as attributes;
    times for which numpy picks another array type than the one modelled;
    and, in the integer instance, a text that is not a plain literal.
    Nothing is stated about those runs. *)
Inductive exn : Type :=
| ValueError (msg : string)
| KeyError (key : string)
| IndexError
| TypeError
| AttributeError
| OverflowError
| Unsupported.

Definition result (A : Type) : Type := (exn + A)%type.

Definition rbind {A B : Type} (r : result A) (k : A -> result B) : result B :=
  match r with
  | inl e => inl e
  | inr a => k a
  end.

Notation "'try' x <- r ; k" := (rbind r (fun x => k))
  (at level 10, x name, r at level 100, k at level 200).

(** A list comprehension whose element expression may raise. *)
Fixpoint comprehension {A B : Type} (f : A -> result B) (l : list A) : result (list B) :=
  match l with
  | [] => inr []
  | a :: l' =>
      try b <- f a;
      try bs <- comprehension f l';
      inr (b :: bs)
  end.

(** [l[i]] on a Python list or a numpy array, for [i >= 0]. *)
Definition index {A : Type} (l : list A) (i : nat) : result A :=
  match nth_error l i with
  | Some a => inr a
  | None => inl IndexError
  end.

(** ** Insertion-ordered dictionaries *)

Module Dict.

Definition t (V : Type) : Type := list (string * V).

Section Ops.
Variable V : Type.

Fixpoint get (k : string) (d : t V) : option V :=
  match d with
  | [] => None
  | (k', v) :: d' => if String.eqb k k' then Some v else get k d'
  end.

(** [k in d] *)
Definition mem (k : string) (d : t V) : bool :=
  match get k d with Some _ => true | None => false end.

(** [d[k] = v]: an existing key keeps its position, a new one goes last. *)
Fixpoint set (k : string) (v : V) (d : t V) : t V :=
  match d with
  | [] => [(k, v)]
  | (k', v') :: d' =>
      if String.eqb k k' then (k', v) :: d' else (k', v') :: set k v d'
  end.

(** [d[k]] *)
Definition getitem (d : t V) (k : string) : result V :=
  match get k d with
  | Some v => inr v
  | None => inl (KeyError k)
  end.

(** [d.get(k, default)] *)
Definition get_default (k : string) (default : V) (d : t V) : V :=
  match get k d with
  | Some v => v
  | None => default
  end.

Definition keys (d : t V) : list string := map fst d.

End Ops.

End Dict.

(** ** State and exceptions *)

Definition M (S A : Type) : Type := S -> result A * S.

Definition ret {S A : Type} (a : A) : M S A := fun s => (inr a, s).

Definition bind {S A B : Type} (m : M S A) (k : A -> M S B) : M S B :=
  fun s =>
    match m s with
    | (inl e, s') => (inl e, s')
    | (inr a, s') => k a s'
    end.

Definition raise {S A : Type} (e : exn) : M S A := fun s => (inl e, s).

Definition get_state {S : Type} : M S S := fun s => (inr s, s).

Definition modify {S : Type} (f : S -> S) : M S unit := fun s => (inr tt, f s).

Definition lift {S A : Type} (r : result A) : M S A := fun s => (r, s).

Notation "x <- m ;; k" := (bind m (fun x => k))
  (at level 61, m at next level, right associativity).
Notation "m ;; k" := (bind m (fun _ => k))
  (at level 61, right associativity).

(** A [for] loop whose body runs in the monad. *)
Fixpoint for_each {S A : Type} (l : list A) (body : A -> M S unit) : M S unit :=
  match l with
  | [] => ret tt
  | a :: l' => body a ;; for_each l' body
  end.

(** ** Numbers and text *)

(** [str(z)] for a Python [int]: a sign when negative, then the decimal
    digits. *)
Definition str_of_Z (z : Z) : string :=
  NilZero.string_of_int (Z.to_int z).

(** [str(len(l))] *)
Definition str_of_nat (n : nat) : string :=
  str_of_Z (Z.of_nat n).

(** The numbers held in the [timesteps] array, with the operations the code
    applies to them. *)
Class PyNum (num : Type) : Type := {
  zero : num;                       (* the literal [0] *)
  sub : num -> num -> num;          (* [x - y] on two numpy scalars *)
  leb : num -> num -> bool;         (* [x <= y], the order of the sort *)
  str : num -> string;              (* [str(x)] *)
  float : string -> result num;     (* [float(s)] *)
  int : string -> result Z;         (* [int(s)] *)
  in_array : num -> bool;           (* [np.array] keeps the value in the
                                       array type that is modelled *)
  as_operand : num -> result num;   (* a stored Python number taken by numpy
                                       as the other operand of a scalar *)
  to_float : num -> num             (* [float(x)] *)
}.

Class PyNumLaws (num : Type) {PN : PyNum num} : Prop := {
  int_str_of_nat : forall n : nat, int (str_of_nat n) = inr (Z.of_nat n)
}.

Arguments PyNumLaws num {PN}.

Class PyFloatLaws (num : Type) {PN : PyNum num} : Prop := {
  float_str : forall x : num, in_array x = true -> float (str x) = inr (to_float x)
}.

Arguments PyFloatLaws num {PN}.

(** Truth value of a Python [str]: false only for the empty string. *)
Definition truthy (s : string) : bool :=
  negb (String.eqb s "").

(** ** Values and document nodes *)

(** One timestep record, and the attributes of an element: [dict] from
    attribute name to text. *)
Definition attributes : Type := Dict.t string.

(** What [self.data] of a [TimeIncrements] holds: [None] or a [str] taken from
    an element's text, a number assigned by the caller, or the list of
    timestep records. *)
Inductive value (num : Type) : Type :=
| VNone
| VStr (s : string)
| VNum (x : num)
| VList (l : list attributes).

Arguments VNone {num}.
Arguments VStr {num} s.
Arguments VNum {num} x.
Arguments VList {num} l.

(** An [xml.etree.ElementTree.Element]: tag, text, attributes, children.
    [text] is [None] or a [str] in a parsed document; [__write__] assigns the
    stored value to it as it is. *)
#[local] Set Warnings "-register-all".
Inductive Element (num : Type) : Type :=
| mkElement (tag : string) (text : value num) (attrib : attributes)
            (children : list (Element num)).

Section ElementAccess.
Variable num : Type.

Definition tag (e : Element num) : string :=
  match e with mkElement t _ _ _ => t end.
Definition text (e : Element num) : value num :=
  match e with mkElement _ x _ _ => x end.
Definition attrib (e : Element num) : attributes :=
  match e with mkElement _ _ a _ => a end.
Definition children (e : Element num) : list (Element num) :=
  match e with mkElement _ _ _ c => c end.

(** [ET.Element(tag)]: no text, no attribute, no child. *)
Definition fresh (t : string) : Element num := mkElement t VNone [] [].

(** [ET.SubElement(et, ...)] once the new child is complete: the child is
    appended to [et]. *)
Definition SubElement (sub : Element num) : M (Element num) unit :=
  modify (fun et => mkElement (tag et) (text et) (attrib et) (children et ++ [sub])).
End ElementAccess.

(** The types named in a [parameter_type] table; [None] there is [PyNone]. *)
Inductive pytype : Type := PyFloat | PyStr | PyInt | PyList | PyDict | PyBool | PyNone | PyClass (name : string).

(** * TimeIncrements *)

Module TimeIncrements.

Definition parameter_type : Dict.t pytype :=
  [ ("Start", PyFloat);
    ("Duration", PyFloat);
    ("IncrementOption", PyStr);
    ("IncrementCount", PyInt);
    ("InitialIncrementSize", PyFloat);
    ("SaveMultiplesOf", PyInt);
    ("TimeSteps", PyList) ].

Section Methods.
Context {num : Type} {PN : PyNum num}.

(** [self.data] *)
Definition data : Type := Dict.t (value num).

(** [self.data["TimeSteps"].append(rec)] *)
Definition append_TimeSteps (rec : attributes) : M data unit :=
  d <- get_state ;;
  v <- lift (Dict.getitem d "TimeSteps") ;;
  match v with
  | VList l => modify (Dict.set "TimeSteps" (VList (l ++ [rec])))
  | _ => raise AttributeError
  end.

(** The body of the loop of [read] for one child [prop] of the node. *)
Definition read_prop (prop : Element num) : M data unit :=
  if String.eqb (tag prop) "TimeSteps" then
    d <- get_state ;;
    (if negb (Dict.mem "TimeSteps" d)
     then modify (Dict.set "TimeSteps" (VList []))
     else ret tt) ;;
    len <- lift (Dict.getitem (attrib prop) "Len") ;;
    n <- lift (int len) ;;
    for_each (children prop) (fun time => append_TimeSteps (attrib time))
  else
    modify (Dict.set (tag prop) (text prop)).

Definition read (et : Element num) : M data unit :=
  for_each (children et) read_prop.

(** The body of the loop of [__write__] for one item of [self.data]; the
    state is the node [et] being filled. *)
Definition write_item (item : string * value num) : M (Element num) unit :=
  let (tag, val) := item in
  if String.eqb tag "TimeSteps" then
    match val with
    | VList l =>
        SubElement
          (mkElement tag VNone [("Len", str_of_nat (List.length l))]
             (map (fun time => mkElement "TimeStep" VNone time []) l))
    | VNone | VNum _ =>
        (* [len(...)] raises, the empty child is already in [et] *)
        SubElement (fresh num tag) ;; raise TypeError
    | VStr _ =>
        SubElement (fresh num tag) ;; raise Unsupported
    end
  else
    match Dict.get tag parameter_type with
    | Some PyNone =>
        (* [val.__write__(sub)] on a value that is no container *)
        SubElement (fresh num tag) ;; raise AttributeError
    | _ => SubElement (mkElement tag val [] [])
    end.

Definition __write__ (self : data) : M (Element num) unit :=
  for_each self write_item.

(** [for x in self.data["TimeSteps"]] with a body that indexes [x] by a
    key: the records of a list; [None] and a number are not iterable; the
    characters of a string cannot be indexed by a key. *)
Definition iterate (v : value num) : result (list attributes) :=
  match v with
  | VList l => inr l
  | VStr s => if String.eqb s "" then inr [] else inl TypeError
  | VNone | VNum _ => inl TypeError
  end.

(** The rows [showTimeSteps] adds to its table. *)
Definition showTimeSteps (self : data) : result (list (list string)) :=
  try v <- Dict.getitem self "TimeSteps";
  try l <- iterate v;
  try rows <- comprehension
    (fun ix : nat * attributes =>
       let (i, x) := ix in
       try step <- Dict.getitem x "Step";
       try elapsed <- Dict.getitem x "ElapsedTime";
       inr [str_of_nat (i + 1); step; elapsed; Dict.get_default "Save" "false" x])
    (combine (seq 0 (List.length l)) l);
  inr (["0"; ""; "0"; ""] :: rows).

(** [float(x["ElapsedTime"])] *)
Definition elapsed_time (x : attributes) : result num :=
  try s <- Dict.getitem x "ElapsedTime";
  float s.

(** [[float(x["ElapsedTime"]) for x in steps if x["Save"]]]: the condition
    is evaluated first, for every record. *)
Fixpoint saved_times (steps : list attributes) : result (list num) :=
  match steps with
  | [] => inr []
  | x :: steps' =>
      try save <- Dict.getitem x "Save";
      if truthy save then
        try t <- elapsed_time x;
        try ts <- saved_times steps';
        inr (t :: ts)
      else saved_times steps'
  end.

Definition getSavedTimeStep (self : data) : result (list num) :=
  try v <- Dict.getitem self "TimeSteps";
  try l <- iterate v;
  saved_times l.

Definition getTimeStep (self : data) : result (list num) :=
  try v <- Dict.getitem self "TimeSteps";
  try l <- iterate v;
  comprehension elapsed_time l.

(** [np.argsort], see the head of the file. *)
Variable argsort : list num -> list nat.

(** [np.array(l)[indices]] *)
Definition take {A : Type} (l : list A) (indices : list nat) : result (list A) :=
  comprehension (index l) indices.

(** The list as numpy holds it, in [np.argsort(l)] and in [np.array(l)].
    Values that would make numpy choose another array type are not
    followed. *)
Definition np_array (l : list num) : result (list num) :=
  if forallb in_array l then inr l else inl Unsupported.

(** [x - start] where [x] is a numpy scalar and [start] a stored value: a
    number is first converted to the type of [x], which can fail. *)
Definition np_sub (x : num) (start : value num) : result num :=
  match start with
  | VNum y => try y' <- as_operand y; inr (sub x y')
  | VNone | VStr _ => inl TypeError
  | VList _ => inl Unsupported
  end.

(** The dictionary [temp] of [setTimeSteps]. *)
Definition temp (step elapsed : num) (save : bool) : attributes :=
  let temp := [("Step", str step); ("ElapsedTime", str elapsed)] in
  if save then Dict.set "Save" "true" temp else temp.

Definition setTimeSteps (timesteps : list num) (saved : list bool) : M data unit :=
  if negb (Nat.eqb (List.length timesteps) (List.length saved)) then
    raise (ValueError "timestep and saved parameter must be of the same size")
  else
    array <- lift (np_array timesteps) ;;
    let indices := argsort array in
    timesteps_ <- lift (take array indices) ;;
    saved_ <- lift (take saved indices) ;;
    self <- get_state ;;
    let start := Dict.get_default "Start" (VNum zero) self in
    first <- lift (try t0 <- index timesteps_ 0;
                   try step <- np_sub t0 start;
                   try s0 <- index saved_ 0;
                   inr (temp step t0 s0)) ;;
    rest <- lift (comprehension
                    (fun i =>
                       try ti <- index timesteps_ i;
                       try tp <- index timesteps_ (i - 1);
                       try si <- index saved_ i;
                       inr (temp (sub ti tp) ti si))
                    (seq 1 (List.length timesteps - 1))) ;;
    modify (Dict.set "IncrementCount" (VStr (str_of_nat (List.length timesteps)))) ;;
    modify (Dict.set "TimeSteps" (VList (first :: rest))).

End Methods.

Arguments data num : clear implicits.

End TimeIncrements.


(** * Analysis *)

Module Analysis.

Definition parameter_type : Dict.t pytype :=
  [ ("ID", PyInt);
    ("Name", PyStr);
    ("Kind", PyStr);
    ("Description", PyStr);
    ("ParentID", PyInt);
    ("Method", PyStr);
    ("GeometryId", PyInt);
    ("Geometry", PyNone);
    ("Context", PyNone);
    ("ExcludeInitDeformation", PyBool);
    ("Results", PyClass "Results");
    ("TimeIncrements", PyClass "TimeIncrements");
    ("ComputedPhysics", PyDict);
    ("PhysicsOptions", PyDict) ].

Definition my_data : list string := ["Geometry"; "Context"; "Results"].

Section Methods.
Context {num : Type}.

(** A collaborator (a Geometry or a Context object), seen through its own
    [data] dictionary. *)
Record object : Type := mkObject { obj_data : Dict.t (value num) }.

(** What [self.data] of an [Analysis] holds: a plain value or a reference to
    a collaborator. *)
Inductive item : Type :=
| Plain (v : value num)
| Ref (o : object).

(** An [Analysis] instance: its [data] dictionary and the instance attribute
    [context], which does not exist until it is assigned. *)
Record self : Type := mkSelf {
  data : Dict.t item;
  context : option object
}.

Definition set_data (k : string) (v : item) : M self unit :=
  modify (fun s => mkSelf (Dict.set k v (data s)) (context s)).

Definition setGeometry (geom : object) : M self unit :=
  set_data "Geometry" (Ref geom) ;;
  id <- lift (Dict.getitem (obj_data geom) "ID") ;;
  set_data "GeometryID" (Plain id).

Definition setContext (c : object) : M self unit :=
  modify (fun s => mkSelf (data s) (Some c)).

(** What [showProblem] sends to the terminal and to the plotting library. *)
Inductive event : Type :=
| Printed (msg : string)
| Drawn (geometry : object)
| Filled (geometry ctx : object)
| Shown.

(** The collaborators' side of [showProblem]: [Geometry.draw], and the loop
    that colours the regions of the geometry by material. *)
Variable draw : object -> result unit.
Variable fill_regions : object -> object -> result unit.

Definition showProblem (s : self) : result (list event) :=
  match Dict.get "Geometry" (data s) with
  | None => inr [Printed "No geometry defined, thus can't show problem."]
  | Some (Plain _) => inl AttributeError
  | Some (Ref geometry) =>
      try _ <- draw geometry;
      if negb (Dict.mem "Context" (data s)) then
        inl (KeyError "Analysis not properly defined. 'Context' is not available in data.")
      else
        try c <- Dict.getitem (data s) "Context";
        match c with
        | Plain _ => inl AttributeError
        | Ref ctx =>
            if negb (Dict.mem "GeometryUsesMaterials" (obj_data ctx)) then
              inr [Drawn geometry;
                   Printed "No materials assigned to regions. Only geometry is shown.";
                   Shown]
            else
              try _ <- fill_regions geometry ctx;
              inr [Drawn geometry; Filled geometry ctx; Shown]
        end
  end.

End Methods.

End Analysis.

(** * The contract of [np.argsort] *)

Section ArgsortContract.
Context {num : Type} {PN : PyNum num}.

Definition ascending (l : list num) : Prop :=
  Sorted (fun x y => leb x y = true) l.

(** The indices returned for [l] are the positions of [l], each once, in an
    order that makes the values ascend. *)
Definition argsort_contract (argsort : list num -> list nat) : Prop :=
  forall l : list num,
    Permutation (argsort l) (seq 0 (List.length l)) /\
    ascending (map (fun i => nth i l zero) (argsort l)).

(** Insertion of position [i] into a list of positions ordered by value;
    [before x y] decides whether a value [x] goes in front of [y]. *)
Fixpoint insert_index (before : num -> num -> bool) (l : list num)
    (i : nat) (sorted : list nat) : list nat :=
  match sorted with
  | [] => [i]
  | j :: rest =>
      if before (nth i l zero) (nth j l zero)
      then i :: j :: rest
      else j :: insert_index before l i rest
  end.

Definition insertion_argsort (before : num -> num -> bool) (l : list num) : list nat :=
  fold_right (insert_index before l) [] (seq 0 (List.length l)).

(** Two sorts within the contract.  The first keeps equal values in input
    order; the second puts equal values in reverse input order. *)
Definition argsort_stable : list num -> list nat :=
  insertion_argsort leb.

Definition argsort_reversing : list num -> list nat :=
  insertion_argsort (fun x y => negb (leb y x)).

End ArgsortContract.

(** * Integer times *)

(** [np.int64] arithmetic: the result is reduced to 64 bits, two's complement. *)
Definition wrap64 (z : Z) : Z :=
  ((z + 2 ^ 63) mod 2 ^ 64 - 2 ^ 63)%Z.

(** The values of [int64]. *)
Definition int64_range (z : Z) : bool :=
  ((- 2 ^ 63 <=? z) && (z <? 2 ^ 63))%Z.

(** [float(z)] for a Python [int], as the integer the float equals: [z]
    itself up to 53 bits, else the nearest number with a 53-bit mantissa,
    ties to the even mantissa. *)
Definition round53 (z : Z) : Z :=
  let a := Z.abs z in
  if (a <? 2 ^ 53)%Z then z
  else
    let e := (Z.log2 a - 52)%Z in
    let q := Z.shiftr a e in
    let r := (a - Z.shiftl q e)%Z in
    let half := (2 ^ (e - 1))%Z in
    let q' := if (half <? r)%Z || ((r =? half)%Z && Z.odd q) then (q + 1)%Z else q in
    (Z.sgn z * Z.shiftl q' e)%Z.

(** The integer a plain decimal literal denotes: an optional [-] and
    digits. *)
Definition Z_of_text (s : string) : option Z :=
  option_map Z.of_int (NilZero.int_of_string s).

(** [int(s)] on a plain literal.  The empty text is rejected as Python
    rejects it; other texts (signs, spaces, underscores, and what Python
    rejects too) are not followed. *)
Definition int_of_text (s : string) : result Z :=
  match Z_of_text s with
  | Some z => inr z
  | None =>
      if String.eqb s EmptyString
      then inl (ValueError "invalid literal for int() with base 10: ''")
      else inl Unsupported
  end.

(** The part of [s] before its first point, and the part after it when
    there is a point. *)
Fixpoint split_point (s : string) : string * option string :=
  match s with
  | EmptyString => (EmptyString, None)
  | String c s' =>
      if Ascii.eqb c "."%char then (EmptyString, Some s')
      else let (a, b) := split_point s' in (String c a, b)
  end.

Fixpoint all_zeros (s : string) : bool :=
  match s with
  | EmptyString => true
  | String c s' => Ascii.eqb c "0"%char && all_zeros s'
  end.

(** Whether the float nearest to [z] is finite: from [2^1024 - 2^970] on
    it is [inf]. *)
Definition finite_float (z : Z) : bool :=
  (Z.abs z <? 2 ^ 1024 - 2 ^ 970)%Z.

(** [float(s)] on a plain literal of an integer value: an optional [-],
    digits, and possibly a point followed by zeros.  The empty text is
    rejected as Python rejects it; other texts, those of floats that are
    not integers or not finite among them, are not followed. *)
Definition float_of_text (s : string) : result Z :=
  let (whole, fraction) := split_point s in
  match Z_of_text whole, fraction with
  | Some z, None =>
      if finite_float z then inr (round53 z) else inl Unsupported
  | Some z, Some zeros =>
      if all_zeros zeros && finite_float z then inr (round53 z) else inl Unsupported
  | None, _ =>
      if String.eqb s EmptyString
      then inl (ValueError "could not convert string to float: ''")
      else inl Unsupported
  end.

(** Times given as Python [int]s that numpy holds as [int64].  A float with
    an integer value is identified with that integer.  A stored Python
    [int] meets an [int64] scalar as an [int64], or not at all when it is
    out of range. *)
#[export] Instance PyInt64 : PyNum Z := {|
  zero := 0%Z;
  sub := fun x y => wrap64 (x - y);
  leb := Z.leb;
  str := str_of_Z;
  float := float_of_text;
  int := int_of_text;
  in_array := int64_range;
  as_operand := fun y => if int64_range y then inr y else inl OverflowError;
  to_float := round53
|}.

(** The integer that the text under key [k] of a record denotes. *)
Definition integer_field (x : attributes) (k : string) : option Z :=
  match Dict.get k x with
  | Some s => Z_of_text s
  | None => None
  end.

(** [a - b] on two Python floats with integer values. *)
Definition float_minus (a b : Z) : Z :=
  round53 (a - b).

(** * Readings of the stored schedule used in the statements *)

Section Readings.
Context {num : Type} {PN : PyNum num}.

(** [float(x["Step"])] *)
Definition step_size (x : attributes) : result num :=
  try s <- Dict.getitem x "Step";
  float s.

(** The start time [setTimeSteps] subtracts: [0] when [Start] is unset, the
    stored number when there is one, as numpy takes it.  A [Start] that is
    text or [None], or a number numpy does not take, cannot be
    subtracted. *)
Definition start_time (d : TimeIncrements.data num) : option num :=
  match Dict.get_default "Start" (VNum zero) d with
  | VNum x => match as_operand x with inr y => Some y | inl _ => None end
  | _ => None
  end.

(** The record list in the store, [[]] when the key is not there yet. *)
Definition steps_of (d : TimeIncrements.data num) : option (list attributes) :=
  match Dict.get "TimeSteps" d with
  | None => Some []
  | Some (VList l) => Some l
  | Some _ => None
  end.

(** The records a node carries: the attributes of the children of its
    [TimeSteps] children, in document order. *)
Definition records_of_prop (prop : Element num) : list attributes :=
  if String.eqb (tag prop) "TimeSteps" then map (@attrib num) (children prop) else [].

Definition records_of (et : Element num) : list attributes :=
  flat_map records_of_prop (children et).

(** The text of the last child of the node with tag [k]. *)
Definition overwrite (k : string) (acc : option (value num)) (prop : Element num)
    : option (value num) :=
  if String.eqb (tag prop) k then Some (text prop) else acc.

Definition last_text (k : string) (et : Element num) : option (value num) :=
  fold_left (overwrite k) (children et) None.

Definition has_TimeSteps (et : Element num) : bool :=
  existsb (fun prop => String.eqb (tag prop) "TimeSteps") (children et).

(** A child that [read] gets through: a [TimeSteps] child needs a [Len]
    attribute that [int] accepts. *)
Definition readable_prop (prop : Element num) : bool :=
  if String.eqb (tag prop) "TimeSteps" then
    match Dict.get "Len" (attrib prop) with
    | Some len => match int len with inr _ => true | inl _ => false end
    | None => false
    end
  else true.

Definition readable (et : Element num) : bool :=
  forallb readable_prop (children et).

(** The [(time, saved)] pairs in the order [np.argsort] gives:
    [timesteps_] and [saved_] side by side. *)
Definition sorted_pairs (argsort : list num -> list nat)
    (timesteps : list num) (saved : list bool) : list (num * bool) :=
  map (fun i => (nth i timesteps zero, nth i saved false)) (argsort timesteps).

(** The records built from pairs already in order, each step measured from
    the time before it. *)
Fixpoint schedule (prev : num) (pairs : list (num * bool)) : list attributes :=
  match pairs with
  | [] => []
  | (t, s) :: rest => TimeIncrements.temp (sub t prev) t s :: schedule t rest
  end.

(** The child [__write__] creates for one item of a store. *)
Definition written (item : string * value num) : Element num :=
  let (k, v) := item in
  if String.eqb k "TimeSteps" then
    match v with
    | VList l =>
        mkElement k VNone [("Len", str_of_nat (List.length l))]
          (map (fun time => mkElement "TimeStep" VNone time []) l)
    | _ => fresh num k
    end
  else mkElement k v [] [].

(** An item that [__write__] can emit: under [TimeSteps] there is a list. *)
Definition item_ok (item : string * value num) : Prop :=
  fst item = "TimeSteps" -> exists l, snd item = VList l.

(** A store as [read] leaves it: no key twice, records under [TimeSteps]. *)
Definition well_formed (d : TimeIncrements.data num) : Prop :=
  NoDup (Dict.keys d) /\
  forall v, Dict.get "TimeSteps" d = Some v -> exists l, v = VList l.

End Readings.

(** * The table of [showTimeSteps] *)

Section Table.
Context {num : Type} {PN : PyNum num}.

(** The rows [showTimeSteps] prints for records built from pairs in order,
    numbered from [i + 1]. *)
Fixpoint table_rows (i : nat) (prev : num) (pairs : list (num * bool))
    : list (list string) :=
  match pairs with
  | [] => []
  | (t, s) :: rest =>
      [str_of_nat (i + 1); str (sub t prev); str t; if s then "true" else "false"]
      :: table_rows (S i) t rest
  end.

End Table.

(** * Sample data, on integer times *)

(** A schedule with one record that is not saved and one whose [Save] says
    ["false"]. *)
Definition unsaved_schedule : TimeIncrements.data Z :=
  [ ("TimeSteps",
     VList [ [("Step", "2"); ("ElapsedTime", "2"); ("Save", "false")];
             [("Step", "3"); ("ElapsedTime", "5")] ]) ].

(** A store with a schedule already in it. *)
Definition prior_schedule : TimeIncrements.data Z :=
  [ ("Start", VNum 1%Z);
    ("IncrementCount", VStr "1");
    ("TimeSteps", VList [[("Step", "3"); ("ElapsedTime", "4"); ("Save", "true")]]) ].

(** The same store after [setTimeSteps([5, 2, 10], [False, True, True])]. *)
Definition rebuilt_schedule : TimeIncrements.data Z :=
  [ ("Start", VNum 1%Z);
    ("IncrementCount", VStr "3");
    ("TimeSteps",
     VList [ [("Step", "1"); ("ElapsedTime", "2"); ("Save", "true")];
             [("Step", "3"); ("ElapsedTime", "5")];
             [("Step", "5"); ("ElapsedTime", "10"); ("Save", "true")] ]) ].

(** A [TimeIncrements] subtree: two [Start] children, and a schedule of two
    records of which the second is not saved. *)
Definition sample_node : Element Z :=
  mkElement "TimeIncrements" VNone []
    [ mkElement "Start" (VStr "0") [] [];
      mkElement "TimeSteps" VNone [("Len", "2")]
        [ mkElement "TimeStep" VNone
            [("Step", "1"); ("ElapsedTime", "1"); ("Save", "true")] [];
          mkElement "TimeStep" VNone [("Step", "1"); ("ElapsedTime", "2")] [] ];
      mkElement "Start" (VStr "4") [] [];
      mkElement "Duration" VNone [] [] ].

(** The store [read] makes of it. *)
Definition sample_store : TimeIncrements.data Z :=
  [ ("Start", VStr "4");
    ("TimeSteps",
     VList [ [("Step", "1"); ("ElapsedTime", "1"); ("Save", "true")];
             [("Step", "1"); ("ElapsedTime", "2")] ]);
    ("Duration", VNone) ].

(** An analysis as the document gives it, a geometry and a context. *)
Definition sample_geometry : Analysis.object (num := Z) :=
  Analysis.mkObject [("ID", VStr "2")].

Definition sample_context : Analysis.object (num := Z) :=
  Analysis.mkObject [].

Definition sample_analysis : Analysis.self (num := Z) :=
  Analysis.mkSelf
    [ ("ID", Analysis.Plain (VStr "1"));
      ("Name", Analysis.Plain (VStr "Steady state"));
      ("GeometryId", Analysis.Plain (VStr "1")) ]
    None.

(** The analysis once [setGeometry] has run. *)
Definition with_geometry : Analysis.self (num := Z) :=
  snd (Analysis.setGeometry sample_geometry sample_analysis).

(** The sample subtree with another [Len] on its schedule, and with none. *)
Definition sample_node_wrong_Len : Element Z :=
  mkElement "TimeIncrements" VNone []
    [ mkElement "Start" (VStr "0") [] [];
      mkElement "TimeSteps" VNone [("Len", "7")]
        [ mkElement "TimeStep" VNone
            [("Step", "1"); ("ElapsedTime", "1"); ("Save", "true")] [];
          mkElement "TimeStep" VNone [("Step", "1"); ("ElapsedTime", "2")] [] ];
      mkElement "Start" (VStr "4") [] [];
      mkElement "Duration" VNone [] [] ].

Definition TimeSteps_without_Len : Element Z :=
  mkElement "TimeSteps" VNone []
    [ mkElement "TimeStep" VNone [("Step", "1"); ("ElapsedTime", "1")] [] ].

(** A node whose only child is that [TimeSteps] element. *)
Definition node_without_Len : Element Z :=
  mkElement "TimeIncrements" VNone [] [TimeSteps_without_Len].

(** A geometry that has no [ID], and a second geometry. *)
Definition geometry_without_ID : Analysis.object (num := Z) :=
  Analysis.mkObject [("Name", VStr "2D")].

Definition other_geometry : Analysis.object (num := Z) :=
  Analysis.mkObject [("ID", VStr "3")].

(** A store without [Start]. *)
Definition no_start : TimeIncrements.data Z :=
  [("Duration", VStr "10")].

(** Six hundred equal times, the first three hundred to be saved. *)
Definition equal_times : list Z := repeat 1%Z 600.

Definition saved_first_half : list bool := repeat true 300 ++ repeat false 300.

(** The [Save] entry that [setTimeSteps] writes for a flag. *)
Definition save_entry (s : bool) : option string :=
  if s then Some "true" else None.

(** A [Start] one past the largest [int64]. *)
Definition start_past_int64 : TimeIncrements.data Z :=
  [("Start", VNum (2 ^ 63)%Z)].

(** The two ends of [int64], and two integers above 53 bits. *)
Definition int64_ends : list Z := [(- 2 ^ 63)%Z; (2 ^ 63 - 1)%Z].

Definition above_53_bits : list Z := [(2 ^ 53 + 1)%Z; (2 ^ 53 + 2)%Z].

(** * Facts about dictionaries *)

Section DictFacts.
Variable V : Type.
Implicit Types (d : Dict.t V) (k : string) (v : V).

Lemma get_set_same k v d : Dict.get k (Dict.set k v d) = Some v.
Proof.
  induction d as [|[k' v'] d IH]; simpl.
  - now rewrite String.eqb_refl.
  - destruct (String.eqb k k') eqn:E; simpl; rewrite E; auto.
Qed.

Lemma get_set_other k k' v d :
  k <> k' -> Dict.get k' (Dict.set k v d) = Dict.get k' d.
Proof.
  intros Hne. induction d as [|[k0 v0] d IH]; simpl.
  - destruct (String.eqb_spec k' k); congruence.
  - destruct (String.eqb_spec k k0); simpl.
    + subst k0. destruct (String.eqb_spec k' k); congruence.
    + destruct (String.eqb k' k0); auto.
Qed.

Lemma get_none_not_in k d : Dict.get k d = None <-> ~ In k (Dict.keys d).
Proof.
  induction d as [|[k' v'] d IH]; simpl.
  - tauto.
  - destruct (String.eqb_spec k k').
    + subst. split; [discriminate | tauto].
    + rewrite IH. split; [intros H [E|I]; congruence || tauto | tauto].
Qed.

Lemma set_fresh k v d : Dict.get k d = None -> Dict.set k v d = d ++ [(k, v)].
Proof.
  induction d as [|[k' v'] d IH]; simpl; auto.
  destruct (String.eqb k k'); [discriminate|].
  intros H. now rewrite IH.
Qed.



Lemma keys_set k v d :
  Dict.keys (Dict.set k v d) =
  if Dict.mem k d then Dict.keys d else Dict.keys d ++ [k].
Proof.
  unfold Dict.mem.
  induction d as [|[k' v'] d IH]; simpl; auto.
  destruct (String.eqb k k') eqn:E; simpl; auto.
  rewrite IH. now destruct (Dict.get k d).
Qed.

Lemma NoDup_keys_set k v d : NoDup (Dict.keys d) -> NoDup (Dict.keys (Dict.set k v d)).
Proof.
  intros Hnd. rewrite keys_set. unfold Dict.mem.
  destruct (Dict.get k d) eqn:E; auto.
  apply get_none_not_in in E.
  apply NoDup_rev in Hnd. rewrite <- (rev_involutive (_ ++ _)).
  apply NoDup_rev. rewrite rev_app_distr. simpl. constructor; auto.
  now rewrite <- in_rev.
Qed.

End DictFacts.

(** * Facts about the monad *)


Lemma comprehension_map {A B : Type} (f : A -> result B) (g : A -> B) (l : list A) :
  (forall a, In a l -> f a = inr (g a)) ->
  comprehension f l = inr (map g l).
Proof.
  induction l as [|a l IH]; simpl; intros H; auto.
  rewrite (H a) by auto. simpl. rewrite IH by auto. reflexivity.
Qed.


(** * The integer instance meets the laws *)

Lemma Z_of_text_str (z : Z) : Z_of_text (str_of_Z z) = Some z.
Proof.
  unfold Z_of_text, str_of_Z.
  rewrite NilZero.isi.
  - simpl. now rewrite DecimalZ.of_to.
  - destruct z; simpl; try discriminate.
    intros [= H]. now apply DecimalPos.Unsigned.to_uint_nonnil in H.
  - destruct z; simpl; try discriminate.
    intros [= H]. now apply DecimalPos.Unsigned.to_uint_nonnil in H.
Qed.

Lemma int_of_text_str (z : Z) : int_of_text (str_of_Z z) = inr z.
Proof. unfold int_of_text. now rewrite Z_of_text_str. Qed.

Lemma split_point_digits (d : Decimal.uint) :
  split_point (NilEmpty.string_of_uint d) = (NilEmpty.string_of_uint d, None).
Proof.
  induction d; simpl; try rewrite IHd; reflexivity.
Qed.

Lemma split_point_str (z : Z) : split_point (str_of_Z z) = (str_of_Z z, None).
Proof.
  unfold str_of_Z, NilZero.string_of_int, NilZero.string_of_uint.
  destruct (Z.to_int z) as [d|d]; destruct d; simpl;
    try rewrite split_point_digits; reflexivity.
Qed.

Lemma int64_finite_float (z : Z) : int64_range z = true -> finite_float z = true.
Proof.
  unfold int64_range, finite_float. intros H.
  apply andb_prop in H. destruct H as [Hlo Hhi].
  apply Z.leb_le in Hlo. apply Z.ltb_lt in Hhi. apply Z.ltb_lt.
  assert (Hbig : (2 ^ 63 < 2 ^ 1024 - 2 ^ 970)%Z) by (vm_compute; reflexivity).
  lia.
Qed.

Lemma float_of_text_str (z : Z) :
  int64_range z = true -> float_of_text (str_of_Z z) = inr (round53 z).
Proof.
  intros H. unfold float_of_text.
  now rewrite split_point_str, Z_of_text_str, (int64_finite_float z H).
Qed.

Lemma wrap64_range (z : Z) : int64_range (wrap64 z) = true.
Proof.
  unfold int64_range, wrap64.
  pose proof (Z.mod_pos_bound (z + 2 ^ 63) (2 ^ 64) ltac:(lia)) as Hb.
  apply andb_true_intro. split; [apply Z.leb_le | apply Z.ltb_lt]; lia.
Qed.

Lemma forallb_perm {A : Type} (f : A -> bool) (l l' : list A) :
  Permutation l l' -> forallb f l = forallb f l'.
Proof.
  induction 1; simpl; try congruence.
  now rewrite !andb_assoc, (andb_comm (f y)).
Qed.

#[export] Instance PyInt64Laws : PyNumLaws Z.
Proof.
  split. intros n. exact (int_of_text_str (Z.of_nat n)).
Qed.

#[export] Instance PyInt64FloatLaws : PyFloatLaws Z.
Proof.
  split. exact float_of_text_str.
Qed.

(** * The two insertion sorts meet the contract *)

Section InsertionArgsort.
Context {num : Type} {PN : PyNum num}.
Variable before : num -> num -> bool.
Hypothesis before_true : forall x y, before x y = true -> leb x y = true.
Hypothesis before_false : forall x y, before x y = false -> leb y x = true.

Lemma insert_index_perm (l : list num) (i : nat) (p : list nat) :
  Permutation (insert_index before l i p) (i :: p).
Proof.
  induction p as [|j p IH]; simpl; auto.
  destruct (before _ _); auto.
  rewrite IH. apply perm_swap.
Qed.

Lemma insert_index_ascending (l : list num) (i : nat) (p : list nat) :
  ascending (map (fun i => nth i l zero) p) ->
  ascending (map (fun i => nth i l zero) (insert_index before l i p)).
Proof.
  unfold ascending.
  induction p as [|j p IH]; simpl; intros Hs.
  - repeat constructor.
  - destruct (before _ _) eqn:E; simpl.
    + constructor; [exact Hs | constructor; now apply before_true].
    + apply Sorted_inv in Hs. destruct Hs as [Hs Hhd].
      constructor; [now apply IH|].
      destruct p as [|j' p]; simpl in *.
      * constructor. now apply before_false.
      * destruct (before (nth i l zero) (nth j' l zero)); simpl; constructor.
        -- now apply before_false.
        -- now apply HdRel_inv in Hhd.
Qed.

Lemma insertion_argsort_contract : argsort_contract (insertion_argsort before).
Proof.
  intros l. unfold insertion_argsort.
  generalize (seq 0 (List.length l)) as idx.
  induction idx as [|i idx [IHp IHs]]; simpl.
  - split; [constructor | constructor].
  - split.
    + rewrite insert_index_perm. now constructor.
    + now apply insert_index_ascending.
Qed.

End InsertionArgsort.

Lemma argsort_stable_contract : argsort_contract (num := Z) argsort_stable.
Proof.
  apply insertion_argsort_contract; simpl; intros x y H.
  - exact H.
  - apply Z.leb_le. apply Z.leb_gt in H. lia.
Qed.

Lemma argsort_reversing_contract : argsort_contract (num := Z) argsort_reversing.
Proof.
  apply insertion_argsort_contract; simpl; intros x y H.
  - apply Z.leb_le. apply negb_true_iff, Z.leb_gt in H. lia.
  - now apply negb_false_iff in H.
Qed.

(** * [setTimeSteps] *)

Section SetTimeSteps.
Context {num : Type} {PN : PyNum num} {PL : PyNumLaws num}.
Variable argsort : list num -> list nat.
Hypothesis argsort_ok : argsort_contract argsort.

Lemma index_nth {A : Type} (l : list A) (i : nat) (dflt : A) :
  i < List.length l -> index l i = inr (nth i l dflt).
Proof.
  intros Hi. unfold index.
  now rewrite (nth_error_nth' l dflt Hi).
Qed.

Lemma argsort_in_range (l : list num) (i : nat) :
  In i (argsort l) -> i < List.length l.
Proof.
  intros Hin. destruct (argsort_ok l) as [Hp _].
  apply (Permutation_in _ Hp) in Hin. apply in_seq in Hin. lia.
Qed.

Lemma argsort_length (l : list num) : List.length (argsort l) = List.length l.
Proof.
  destruct (argsort_ok l) as [Hp _].
  apply Permutation_length in Hp. now rewrite length_seq in Hp.
Qed.

Lemma take_argsort {A : Type} (l : list num) (l' : list A) (dflt : A) :
  List.length l = List.length l' ->
  TimeIncrements.take l' (argsort l) = inr (map (fun i => nth i l' dflt) (argsort l)).
Proof.
  intros Hlen. apply comprehension_map.
  intros i Hin. apply index_nth. rewrite <- Hlen. now apply argsort_in_range.
Qed.

(** The loop of [setTimeSteps], read off the list of pairs: the records after
    the one at position [length pre]. *)
Lemma loop_schedule (pre rest : list (num * bool)) (t : num) (s : bool) :
  let ps := pre ++ (t, s) :: rest in
  comprehension
    (fun i =>
       try ti <- index (map fst ps) i;
       try tp <- index (map fst ps) (i - 1);
       try si <- index (map snd ps) i;
       inr (TimeIncrements.temp (sub ti tp) ti si))
    (seq (S (List.length pre)) (List.length rest))
  = inr (schedule t rest).
Proof.
  revert pre t s. induction rest as [|[t' s'] rest IH]; intros pre t s; simpl; auto.
  assert (Hi : forall {A} (f : num * bool -> A),
             index (map f (pre ++ (t, s) :: (t', s') :: rest)) (S (List.length pre))
             = inr (f (t', s'))).
  { intros A f. unfold index. rewrite nth_error_map.
    rewrite nth_error_app2 by lia.
    replace (S (List.length pre) - List.length pre) with 1 by lia. reflexivity. }
  assert (Hp : index (map fst (pre ++ (t, s) :: (t', s') :: rest)) (List.length pre - 0)
               = inr t).
  { unfold index. rewrite nth_error_map, Nat.sub_0_r.
    rewrite nth_error_app2 by lia. now rewrite Nat.sub_diag. }
  rewrite !Hi, Hp. simpl.
  specialize (IH (pre ++ [(t, s)]) t' s'). simpl in IH.
  rewrite <- app_assoc in IH. simpl in IH.
  rewrite length_app in IH. simpl in IH.
  replace (List.length pre + 1) with (S (List.length pre)) in IH by lia.
  rewrite IH. reflexivity.
Qed.

Lemma sorted_pairs_split (times : list num) (saved : list bool) :
  map fst (sorted_pairs argsort times saved) = map (fun i => nth i times zero) (argsort times) /\
  map snd (sorted_pairs argsort times saved) = map (fun i => nth i saved false) (argsort times).
Proof.
  unfold sorted_pairs. rewrite !map_map. split; reflexivity.
Qed.

Lemma np_sub_start (t0 start : num) (d : TimeIncrements.data num) :
  start_time d = Some start ->
  TimeIncrements.np_sub t0 (Dict.get_default "Start" (VNum zero) d)
  = inr (sub t0 start).
Proof.
  unfold start_time, TimeIncrements.np_sub.
  destruct (Dict.get_default "Start" (VNum zero) d) as [| |x|]; try discriminate.
  destruct (as_operand x); [discriminate|]. now intros [= ->].
Qed.

(** What a call does when the sizes agree, there is at least one time, the
    array holds the times and the start time is a number numpy takes. *)
Lemma setTimeSteps_run (times : list num) (saved : list bool)
    (d : TimeIncrements.data num) (start : num) :
  List.length times = List.length saved ->
  times <> [] ->
  forallb in_array times = true ->
  start_time d = Some start ->
  TimeIncrements.setTimeSteps argsort times saved d =
  (inr tt,
   Dict.set "TimeSteps" (VList (schedule start (sorted_pairs argsort times saved)))
     (Dict.set "IncrementCount" (VStr (str_of_nat (List.length times))) d)).
Proof.
  intros Hlen Hne Harr Hstart.
  unfold TimeIncrements.setTimeSteps.
  replace (Nat.eqb (List.length times) (List.length saved)) with true
    by (now rewrite Hlen, Nat.eqb_refl).
  cbv beta iota delta [negb].
  destruct (sorted_pairs_split times saved) as [Hts Hsv].
  unfold bind at 1, lift at 1, TimeIncrements.np_array. rewrite Harr.
  unfold bind at 1, lift at 1. rewrite (take_argsort times times zero eq_refl).
  unfold bind at 1, lift at 1. rewrite (take_argsort times saved false Hlen).
  unfold bind at 1, get_state.
  rewrite <- Hts, <- Hsv.
  destruct (sorted_pairs argsort times saved) as [|[t0 s0] ps] eqn:Eps.
  { exfalso. apply Hne. apply length_zero_iff_nil.
    rewrite <- argsort_length. unfold sorted_pairs in Eps.
    apply map_eq_nil in Eps. now rewrite Eps. }
  assert (Hn : List.length times - 1 = List.length ps).
  { rewrite <- argsort_length.
    replace (List.length (argsort times))
      with (List.length (sorted_pairs argsort times saved))
      by (unfold sorted_pairs; apply length_map).
    rewrite Eps. simpl. lia. }
  pose proof (np_sub_start t0 d Hstart) as Hsub.
  assert (Ht0 : index (map fst ((t0, s0) :: ps)) 0 = inr t0) by reflexivity.
  assert (Hs0 : index (map snd ((t0, s0) :: ps)) 0 = inr s0) by reflexivity.
  unfold bind at 1, lift at 1. rewrite Ht0, Hs0. simpl rbind. rewrite Hsub. simpl rbind.
  unfold bind at 1, lift at 1.
  rewrite Hn. pose proof (loop_schedule [] ps t0 s0) as Hloop.
  simpl in Hloop. rewrite Hloop.
  reflexivity.
Qed.

End SetTimeSteps.

Section Schedule.
Context {num : Type} {PN : PyNum num} {FL : PyFloatLaws num}.
Variable argsort : list num -> list nat.
Hypothesis argsort_ok : argsort_contract argsort.

Lemma map_nth_seq_combine {A B : Type} (l : list A) (l' : list B) (a : A) (b : B) :
  List.length l = List.length l' ->
  map (fun i => (nth i l a, nth i l' b)) (seq 0 (List.length l)) = combine l l'.
Proof.
  revert l'. induction l as [|x l IH]; intros [|y l'] Hlen; try discriminate; auto.
  simpl. rewrite <- seq_shift, map_map. f_equal. apply IH. now injection Hlen.
Qed.

Lemma map_fst_combine {A B : Type} (l : list A) (l' : list B) :
  List.length l = List.length l' -> map fst (combine l l') = l.
Proof.
  revert l'. induction l as [|x l IH]; intros [|y l'] Hlen; try discriminate; auto.
  simpl. f_equal. apply IH. now injection Hlen.
Qed.

Lemma sorted_pairs_perm (times : list num) (saved : list bool) :
  List.length times = List.length saved ->
  Permutation (sorted_pairs argsort times saved) (combine times saved).
Proof.
  intros Hlen. unfold sorted_pairs.
  rewrite <- (map_nth_seq_combine times saved zero false Hlen).
  apply Permutation_map. apply argsort_ok.
Qed.

Lemma sorted_pairs_ascending (times : list num) (saved : list bool) :
  ascending (map fst (sorted_pairs argsort times saved)).
Proof.
  unfold sorted_pairs. rewrite map_map. simpl. apply argsort_ok.
Qed.

Lemma temp_text (step t : num) (s : bool) :
  Dict.get "Step" (TimeIncrements.temp step t s) = Some (str step) /\
  Dict.get "ElapsedTime" (TimeIncrements.temp step t s) = Some (str t).
Proof. destruct s; split; reflexivity. Qed.

Lemma temp_elapsed (step t : num) (s : bool) :
  in_array t = true ->
  TimeIncrements.elapsed_time (TimeIncrements.temp step t s) = inr (to_float t).
Proof.
  intros Ht. unfold TimeIncrements.elapsed_time, Dict.getitem.
  rewrite (proj2 (temp_text step t s)). cbn [rbind]. now apply float_str.
Qed.

Lemma temp_step (step t : num) (s : bool) :
  in_array step = true ->
  step_size (TimeIncrements.temp step t s) = inr (to_float step).
Proof.
  intros Hs. unfold step_size, Dict.getitem.
  rewrite (proj1 (temp_text step t s)). cbn [rbind]. now apply float_str.
Qed.

Lemma sorted_pairs_in_array (times : list num) (saved : list bool) :
  List.length times = List.length saved ->
  forallb in_array times = true ->
  forallb in_array (map fst (sorted_pairs argsort times saved)) = true.
Proof.
  intros Hlen Harr.
  rewrite (forallb_perm in_array
             (Permutation_map fst (sorted_pairs_perm times saved Hlen))).
  now rewrite (map_fst_combine times saved Hlen).
Qed.

Lemma temp_save (step t : num) (s : bool) :
  Dict.get "Save" (TimeIncrements.temp step t s) = if s then Some "true" else None.
Proof. destruct s; reflexivity. Qed.

Lemma schedule_times (prev : num) (ps : list (num * bool)) :
  forallb in_array (map fst ps) = true ->
  comprehension TimeIncrements.elapsed_time (schedule prev ps)
  = inr (map to_float (map fst ps)).
Proof.
  revert prev. induction ps as [|[t s] ps IH]; intros prev Hin; auto.
  cbn [map fst forallb] in Hin. apply andb_prop in Hin. destruct Hin as [Ht Hin].
  cbn [schedule comprehension map fst].
  rewrite temp_elapsed by exact Ht. cbn [rbind]. now rewrite IH.
Qed.

Lemma schedule_length (prev : num) (ps : list (num * bool)) :
  List.length (schedule prev ps) = List.length ps.
Proof.
  revert prev. induction ps as [|[t s] ps IH]; intros prev; simpl; auto.
Qed.

(** Every record of a schedule is built from its own pair and the time of
    the pair before it, or [prev] for the first one. *)
Lemma schedule_nth (prev : num) (ps : list (num * bool)) (i : nat) (rec : attributes) :
  nth_error (schedule prev ps) i = Some rec ->
  exists (t : num) (s : bool) (before : num),
    nth_error ps i = Some (t, s) /\
    rec = TimeIncrements.temp (sub t before) t s /\
    match i with
    | 0 => before = prev
    | S j =>
        exists (s' : bool) (step' : num),
          nth_error ps j = Some (before, s') /\
          nth_error (schedule prev ps) j
          = Some (TimeIncrements.temp step' before s')
    end.
Proof.
  revert prev i. induction ps as [|[t s] ps IH]; intros prev i; simpl.
  - destruct i; discriminate.
  - destruct i as [|i]; simpl.
    + intros [= <-]. exists t, s, prev. auto.
    + intros Hrec. destruct (IH t i Hrec) as (t' & s' & before & Hp & Hr & Hi).
      exists t', s', before. split; [exact Hp|]. split; [exact Hr|].
      destruct i as [|i].
      * subst before. exists s, (sub t prev). auto.
      * exact Hi.
Qed.

(** A call that returns had inputs of one size, at least one time, times
    the array holds, and a start time it could subtract. *)
Lemma setTimeSteps_returns (times : list num) (saved : list bool)
    (d d' : TimeIncrements.data num) :
  TimeIncrements.setTimeSteps argsort times saved d = (inr tt, d') ->
  List.length times = List.length saved /\ times <> [] /\
  forallb in_array times = true /\
  exists start, start_time d = Some start.
Proof.
  unfold TimeIncrements.setTimeSteps.
  destruct (Nat.eqb_spec (List.length times) (List.length saved)) as [Hlen|Hlen];
    [|discriminate].
  cbv beta iota delta [negb]. intros Hrun. split; [exact Hlen|].
  unfold bind at 1, lift at 1, TimeIncrements.np_array in Hrun.
  destruct (forallb in_array times) eqn:Harr; [|discriminate].
  unfold bind at 1, lift at 1 in Hrun.
  rewrite (take_argsort argsort_ok times times zero eq_refl) in Hrun.
  unfold bind at 1, lift at 1 in Hrun.
  rewrite (take_argsort argsort_ok times saved false Hlen) in Hrun.
  unfold bind at 1, get_state in Hrun.
  unfold bind at 1, lift at 1 in Hrun.
  destruct (argsort times) as [|i p] eqn:Ep; [discriminate|].
  split; [|split; [reflexivity|]].
  - intros ->. pose proof (argsort_length argsort_ok []) as Hl.
    rewrite Ep in Hl. discriminate.
  - unfold start_time. cbn [map index nth_error rbind] in Hrun.
    unfold index in Hrun. cbn [nth_error rbind] in Hrun.
    unfold TimeIncrements.np_sub in Hrun.
    destruct (Dict.get_default "Start" (VNum zero) d) as [| |x|];
      try discriminate.
    destruct (as_operand x) as [e|y]; [discriminate | eauto].
Qed.

End Schedule.

(** * Claims about [setTimeSteps] *)

(** C5.  When [timesteps] and [saved] differ in size, [setTimeSteps] raises
    the [ValueError] of its first statement and the store is exactly the one
    it was called on: nothing was written, neither [TimeSteps] nor
    [IncrementCount]. *)
Theorem setTimeSteps_size_mismatch {num : Type} {PN : PyNum num}
    (argsort : list num -> list nat)
    (times : list num) (saved : list bool) (d : TimeIncrements.data num) :
  List.length times <> List.length saved ->
  TimeIncrements.setTimeSteps argsort times saved d =
  (inl (ValueError "timestep and saved parameter must be of the same size"), d).
Proof.
  intros Hne. unfold TimeIncrements.setTimeSteps.
  destruct (Nat.eqb_spec (List.length times) (List.length saved)); [contradiction|].
  reflexivity.
Qed.

Section ScheduleClaims.
Context {num : Type} {PN : PyNum num} {FL : PyFloatLaws num}.
Variable argsort : list num -> list nat.
Hypothesis argsort_ok : argsort_contract argsort.


Lemma schedule_pairs (prev : num) (ps : list (num * bool)) :
  forallb in_array (map fst ps) = true ->
  Forall2
    (fun (rec : attributes) (p : num * bool) =>
       Dict.get "ElapsedTime" rec = Some (str (fst p)) /\
       TimeIncrements.elapsed_time rec = inr (to_float (fst p)) /\
       Dict.get "Save" rec = if snd p then Some "true" else None)
    (schedule prev ps) ps.
Proof.
  revert prev. induction ps as [|[t s] ps IH]; intros prev Hin; simpl; constructor.
  - cbn [map fst forallb] in Hin. apply andb_prop in Hin. destruct Hin as [Ht _].
    cbn [fst snd]. split; [apply temp_text|].
    split; [now apply temp_elapsed | apply temp_save].
  - apply IH. cbn [map fst forallb] in Hin. apply andb_prop in Hin. apply Hin.
Qed.


End ScheduleClaims.

(** * Claims about [getSavedTimeStep] *)

Section SavedTimes.
Context {num : Type} {PN : PyNum num}.

Lemma saved_times_missing_Save (l : list attributes) (x : attributes) :
  In x l -> Dict.get "Save" x = None ->
  exists e : exn, TimeIncrements.saved_times l = inl e.
Proof.
  intros Hin Hx. induction l as [|y l IH]; [contradiction|].
  simpl. unfold Dict.getitem at 1.
  destruct (Dict.get "Save" y) as [save|] eqn:Ey; simpl; [|eauto].
  destruct Hin as [->|Hin]; [congruence|].
  destruct (IH Hin) as [e He].
  destruct (truthy save); [|eauto].
  destruct (TimeIncrements.elapsed_time y); simpl; [eauto|].
  rewrite He. simpl. eauto.
Qed.

Lemma saved_times_all (l : list attributes) :
  (forall x, In x l -> exists s, Dict.get "Save" x = Some s /\ s <> "") ->
  TimeIncrements.saved_times l = comprehension TimeIncrements.elapsed_time l.
Proof.
  induction l as [|y l IH]; intros Hall; simpl; auto.
  destruct (Hall y (or_introl eq_refl)) as (s & Hs & Hne).
  unfold Dict.getitem at 1. rewrite Hs. simpl.
  unfold truthy. destruct (String.eqb_spec s ""); [contradiction|]. simpl.
  rewrite IH; auto. intros x Hx. apply Hall. now right.
Qed.

(** C2, what the code does.  [getSavedTimeStep] reads [x["Save"]] of every
    record: when one record of the schedule has no [Save] key the call
    raises and returns no list; and when every record has a [Save] text that
    is not empty, ["false"] included, it returns the times of all records,
    the same list as [getTimeStep]. *)
Theorem getSavedTimeStep_reads_Save (self : TimeIncrements.data num)
    (l : list attributes) :
  Dict.get "TimeSteps" self = Some (VList l) ->
  (forall x, In x l -> Dict.get "Save" x = None ->
     exists e : exn, TimeIncrements.getSavedTimeStep self = inl e) /\
  ((forall x, In x l -> exists s, Dict.get "Save" x = Some s /\ s <> "") ->
     TimeIncrements.getSavedTimeStep self = TimeIncrements.getTimeStep self).
Proof.
  intros Hl.
  unfold TimeIncrements.getSavedTimeStep, TimeIncrements.getTimeStep, Dict.getitem.
  rewrite Hl. simpl. split.
  - intros x. apply saved_times_missing_Save.
  - apply saved_times_all.
Qed.

End SavedTimes.

(** * The scenario of the specification, on integer times *)

Ltac refute_order Hnd Hs :=
  solve
    [ inversion Hnd as [|? ? Hn1 Hn2]; subst; simpl in *;
      (tauto || (inversion Hn2; subst; simpl in *; tauto))
    | unfold ascending in Hs; simpl in Hs;
      inversion Hs as [|? ? Hs1 Hh1]; subst;
      (inversion Hh1; subst; discriminate) ||
      (inversion Hs1 as [|? ? Hs2 Hh2]; subst; inversion Hh2; subst; discriminate) ].

(** Distinct values leave [np.argsort] no choice. *)
Lemma argsort_5_2_10 (argsort : list Z -> list nat) :
  argsort_contract argsort -> argsort [5; 2; 10]%Z = [1; 0; 2].
Proof.
  intros H. destruct (H [5; 2; 10]%Z) as [Hp Hs].
  pose proof (Permutation_length Hp) as Hl.
  assert (Hnd : NoDup (argsort [5; 2; 10]%Z))
    by (apply (Permutation_NoDup (Permutation_sym Hp)), seq_NoDup).
  assert (Hin : forall i, In i (argsort [5; 2; 10]%Z) -> In i [0; 1; 2])
    by (intros i Hi; apply (Permutation_in _ Hp Hi)).
  destruct (argsort [5; 2; 10]%Z) as [|a [|b [|c [|]]]]; try discriminate.
  pose proof (Hin a (or_introl eq_refl)) as Ha.
  pose proof (Hin b (or_intror (or_introl eq_refl))) as Hb.
  pose proof (Hin c (or_intror (or_intror (or_introl eq_refl)))) as Hc.
  clear Hin Hp Hl. simpl in Ha, Hb, Hc.
  destruct Ha as [<-|[<-|[<-|[]]]]; destruct Hb as [<-|[<-|[<-|[]]]];
    destruct Hc as [<-|[<-|[<-|[]]]];
    try reflexivity; exfalso; refute_order Hnd Hs.
Qed.

(** C1, what the code does.  On a store without [Start],
    [setTimeSteps([5, 2, 10], [False, True, True])] writes [IncrementCount]
    ["3"] and the three records of the specification, and [getTimeStep] then
    returns [[2, 5, 10]]; but [getSavedTimeStep] raises [KeyError('Save')]
    on the second record, which has no [Save] key, instead of returning
    [[2, 10]]. *)
Theorem concrete_scenario (argsort : list Z -> list nat) :
  argsort_contract argsort ->
  exists d' : TimeIncrements.data Z,
    TimeIncrements.setTimeSteps argsort [5; 2; 10]%Z [false; true; true] [] = (inr tt, d') /\
    d' = [ ("IncrementCount", VStr "3");
           ("TimeSteps",
            VList [ [("Step", "2"); ("ElapsedTime", "2"); ("Save", "true")];
                    [("Step", "3"); ("ElapsedTime", "5")];
                    [("Step", "5"); ("ElapsedTime", "10"); ("Save", "true")] ]) ] /\
    TimeIncrements.getTimeStep d' = inr [2; 5; 10]%Z /\
    (exists count : string,
       Dict.get "IncrementCount" d' = Some (VStr count) /\ int count = inr 3%Z) /\
    TimeIncrements.getSavedTimeStep d' = inl (KeyError "Save").
Proof.
  intros Hc.
  assert (Hstart : start_time (num := Z) [] = Some 0%Z) by reflexivity.
  assert (Hne : [5; 2; 10]%Z <> []) by discriminate.
  assert (Hlen : List.length [5; 2; 10]%Z = List.length [false; true; true])
    by reflexivity.
  assert (Harr : forallb in_array [5; 2; 10]%Z = true) by reflexivity.
  rewrite (setTimeSteps_run Hc [false; true; true] [] Hlen Hne Harr Hstart).
  unfold sorted_pairs. rewrite (argsort_5_2_10 Hc).
  eexists. split; [reflexivity|].
  split; [reflexivity|]. split; [reflexivity|].
  split; [|reflexivity].
  exists "3". split; reflexivity.
Qed.

Lemma concrete_scenario_witness :
  argsort_contract (num := Z) argsort_stable /\
  exists d' : TimeIncrements.data Z,
    TimeIncrements.setTimeSteps argsort_stable [5; 2; 10]%Z [false; true; true] []
    = (inr tt, d') /\
    d' = [ ("IncrementCount", VStr "3");
           ("TimeSteps",
            VList [ [("Step", "2"); ("ElapsedTime", "2"); ("Save", "true")];
                    [("Step", "3"); ("ElapsedTime", "5")];
                    [("Step", "5"); ("ElapsedTime", "10"); ("Save", "true")] ]) ] /\
    TimeIncrements.getTimeStep d' = inr [2; 5; 10]%Z /\
    (exists count : string,
       Dict.get "IncrementCount" d' = Some (VStr count) /\ int count = inr 3%Z) /\
    TimeIncrements.getSavedTimeStep d' = inl (KeyError "Save").
Proof.
  split.
  - exact argsort_stable_contract.
  - apply (concrete_scenario argsort_stable_contract).
Defined.


Lemma getSavedTimeStep_reads_Save_witness :
  Dict.get "TimeSteps" unsaved_schedule
  = Some (VList [ [("Step", "2"); ("ElapsedTime", "2"); ("Save", "false")];
                  [("Step", "3"); ("ElapsedTime", "5")] ]) /\
  exists e : exn, TimeIncrements.getSavedTimeStep unsaved_schedule = inl e.
Proof.
  split; [reflexivity|].
  refine (proj1 (getSavedTimeStep_reads_Save unsaved_schedule eq_refl)
            [("Step", "3"); ("ElapsedTime", "5")] _ eq_refl).
  simpl. auto.
Defined.

(** What the two defects of [getSavedTimeStep] look like on small
    schedules: a record without [Save] makes the call raise, a record that
    says ["false"] is reported as saved. *)
Example getSavedTimeStep_KeyError :
  TimeIncrements.getSavedTimeStep unsaved_schedule = inl (KeyError "Save").
Proof. reflexivity. Qed.

Example getSavedTimeStep_false_is_saved :
  TimeIncrements.getSavedTimeStep (num := Z)
    [("TimeSteps", VList [[("Step", "2"); ("ElapsedTime", "2"); ("Save", "false")]])]
  = inr [2%Z].
Proof. reflexivity. Qed.

(** [showTimeSteps], next to it, reads the flag with a default. *)
Example showTimeSteps_defaults_Save :
  TimeIncrements.showTimeSteps unsaved_schedule
  = inr [ ["0"; ""; "0"; ""]; ["1"; "2"; "2"; "false"]; ["2"; "3"; "5"; "false"] ].
Proof. reflexivity. Qed.


Lemma setTimeSteps_size_mismatch_witness :
  List.length [1; 2]%Z <> List.length [true] /\
  TimeIncrements.setTimeSteps argsort_stable [1; 2]%Z [true] prior_schedule =
  (inl (ValueError "timestep and saved parameter must be of the same size"),
   prior_schedule).
Proof.
  split.
  - simpl. lia.
  - apply (setTimeSteps_size_mismatch argsort_stable [1; 2]%Z [true] prior_schedule).
    simpl. lia.
Defined.


Lemma wrap64_exact (z : Z) : int64_range z = true -> wrap64 z = z.
Proof.
  unfold int64_range, wrap64. intros H.
  apply andb_prop in H. destruct H as [Hlo Hhi].
  apply Z.leb_le in Hlo. apply Z.ltb_lt in Hhi.
  rewrite Z.mod_small; lia.
Qed.

Lemma temp_integer_fields (step t : Z) (s : bool) :
  integer_field (TimeIncrements.temp step t s) "Step" = Some step /\
  integer_field (TimeIncrements.temp step t s) "ElapsedTime" = Some t.
Proof.
  unfold integer_field.
  destruct (temp_text step t s) as [-> ->].
  split; apply Z_of_text_str.
Qed.



Example step_delta_on_no_start :
  TimeIncrements.setTimeSteps argsort_stable [5; 2; 10]%Z [false; true; true] no_start
  = (inr tt,
     [ ("Duration", VStr "10");
       ("IncrementCount", VStr "3");
       ("TimeSteps",
        VList [ [("Step", "2"); ("ElapsedTime", "2"); ("Save", "true")];
                [("Step", "3"); ("ElapsedTime", "5")];
                [("Step", "5"); ("ElapsedTime", "10"); ("Save", "true")] ]) ]).
Proof. reflexivity. Qed.


Example step_wraps_around :
  TimeIncrements.setTimeSteps argsort_stable int64_ends [true; true] []
  = (inr tt,
     [ ("IncrementCount", VStr "2");
       ("TimeSteps",
        VList [ [("Step", "-9223372036854775808");
                 ("ElapsedTime", "-9223372036854775808"); ("Save", "true")];
                [("Step", "-1");
                 ("ElapsedTime", "9223372036854775807"); ("Save", "true")] ]) ]).
Proof. vm_compute. reflexivity. Qed.



Example setTimeSteps_empty :
  TimeIncrements.setTimeSteps (num := Z) argsort_stable [] [] [] = (inl IndexError, []) /\
  TimeIncrements.getTimeStep (num := Z) [] = inl (KeyError "TimeSteps").
Proof. split; reflexivity. Qed.

(** A [Start] read from a document is text, and the subtraction raises. *)
Example setTimeSteps_text_Start :
  TimeIncrements.setTimeSteps argsort_stable [3%Z] [true] [("Start", VStr "0")]
  = (inl TypeError, [("Start", VStr "0")]).
Proof. reflexivity. Qed.

(** A [Start] outside [int64] cannot be subtracted from an [int64]. *)
Example setTimeSteps_large_Start :
  TimeIncrements.setTimeSteps argsort_stable [3%Z] [true] start_past_int64
  = (inl OverflowError, start_past_int64).
Proof. reflexivity. Qed.



(** * [read] and [__write__] *)

Section MoreDictFacts.
Variable V : Type.
Implicit Types (d : Dict.t V) (k : string) (v : V).

Lemma set_set k v v' d : Dict.set k v (Dict.set k v' d) = Dict.set k v d.
Proof.
  induction d as [|[k0 v0] d IH]; simpl.
  - now rewrite String.eqb_refl.
  - destruct (String.eqb k k0) eqn:E; simpl; rewrite E; [reflexivity|].
    now rewrite IH.
Qed.

Lemma set_same_value k v d : Dict.get k d = Some v -> Dict.set k v d = d.
Proof.
  induction d as [|[k0 v0] d IH]; simpl; [discriminate|].
  destruct (String.eqb k k0); [now intros [= ->] | intros H; now rewrite IH].
Qed.

Lemma get_in k v d : NoDup (Dict.keys d) -> In (k, v) d -> Dict.get k d = Some v.
Proof.
  induction d as [|[k0 v0] d IH]; simpl; [contradiction|].
  intros Hnd [[= -> ->]|Hin].
  - now rewrite String.eqb_refl.
  - apply NoDup_cons_iff in Hnd. destruct Hnd as [Hk Hnd].
    destruct (String.eqb_spec k k0) as [->|_]; [|auto].
    exfalso. apply Hk. apply (in_map fst) in Hin. exact Hin.
Qed.

End MoreDictFacts.

Lemma parameter_type_no_None (k : string) :
  Dict.get k TimeIncrements.parameter_type <> Some PyNone.
Proof.
  unfold TimeIncrements.parameter_type. simpl.
  repeat (destruct (String.eqb k _); [discriminate|]). discriminate.
Qed.

Section ReadWrite.
Context {num : Type} {PN : PyNum num}.

Lemma steps_of_get (d : TimeIncrements.data num) (l : list attributes) :
  steps_of d = Some l ->
  Dict.get "TimeSteps" d = Some (VList l) \/ (Dict.get "TimeSteps" d = None /\ l = []).
Proof.
  unfold steps_of. destruct (Dict.get "TimeSteps" d) as [[| | |l']|]; try discriminate.
  - intros [= ->]. now left.
  - intros [= <-]. now right.
Qed.

Lemma append_loop (times : list (Element num)) (d : TimeIncrements.data num)
    (l0 : list attributes) :
  Dict.get "TimeSteps" d = Some (VList l0) ->
  for_each times (fun time => TimeIncrements.append_TimeSteps (attrib time)) d =
  (inr tt, Dict.set "TimeSteps" (VList (l0 ++ map (@attrib num) times)) d).
Proof.
  revert d l0. induction times as [|time times IH]; intros d l0 Hd; simpl.
  - rewrite app_nil_r. unfold ret. now rewrite (set_same_value _ _ Hd).
  - unfold bind at 1. unfold TimeIncrements.append_TimeSteps at 1.
    unfold bind, get_state, lift, Dict.getitem. rewrite Hd. unfold modify.
    rewrite (IH _ (l0 ++ [attrib time])) by apply get_set_same.
    now rewrite set_set, <- app_assoc.
Qed.

Lemma read_prop_other (prop : Element num) (d : TimeIncrements.data num) :
  String.eqb (tag prop) "TimeSteps" = false ->
  TimeIncrements.read_prop prop d = (inr tt, Dict.set (tag prop) (text prop) d).
Proof.
  intros E. unfold TimeIncrements.read_prop. now rewrite E.
Qed.

Lemma read_prop_TimeSteps (prop : Element num) (d : TimeIncrements.data num)
    (l0 : list attributes) :
  String.eqb (tag prop) "TimeSteps" = true ->
  readable_prop prop = true ->
  steps_of d = Some l0 ->
  TimeIncrements.read_prop prop d =
  (inr tt, Dict.set "TimeSteps" (VList (l0 ++ map (@attrib num) (children prop))) d).
Proof.
  intros E Hr Hd. unfold TimeIncrements.read_prop. rewrite E.
  unfold readable_prop in Hr. rewrite E in Hr.
  destruct (Dict.get "Len" (attrib prop)) as [len|] eqn:Elen; [|discriminate].
  destruct (int len) as [e|n] eqn:En; [discriminate|].
  unfold bind at 1, get_state. unfold Dict.mem.
  destruct (steps_of_get d Hd) as [Hget|[Hget ->]]; rewrite Hget; simpl negb; cbv iota.
  - unfold bind at 1, ret. unfold bind at 1, lift at 1, Dict.getitem. rewrite Elen.
    unfold bind at 1, lift at 1. rewrite En.
    now apply append_loop.
  - unfold bind at 1, modify at 1. unfold bind at 1, lift at 1, Dict.getitem.
    rewrite Elen. unfold bind at 1, lift at 1. rewrite En.
    rewrite (append_loop _ (Dict.set "TimeSteps" (VList []) d) (l0 := []))
      by apply get_set_same.
    now rewrite set_set.
Qed.

(** A child that [read_prop] got through was readable. *)
Lemma read_prop_returns (prop : Element num) (d d' : TimeIncrements.data num) :
  TimeIncrements.read_prop prop d = (inr tt, d') -> readable_prop prop = true.
Proof.
  unfold TimeIncrements.read_prop, readable_prop.
  destruct (String.eqb (tag prop) "TimeSteps"); [|reflexivity].
  unfold bind at 1, get_state.
  destruct (negb (Dict.mem "TimeSteps" d)).
  - unfold bind at 1, modify at 1. unfold bind at 1, lift at 1, Dict.getitem.
    destruct (Dict.get "Len" (attrib prop)); [|discriminate].
    unfold bind at 1, lift at 1. destruct (int s); [discriminate | reflexivity].
  - unfold bind at 1, ret. unfold bind at 1, lift at 1, Dict.getitem.
    destruct (Dict.get "Len" (attrib prop)); [|discriminate].
    unfold bind at 1, lift at 1. destruct (int s); [discriminate | reflexivity].
Qed.

Lemma well_formed_steps (d : TimeIncrements.data num) :
  well_formed d -> exists l, steps_of d = Some l.
Proof.
  intros [_ H]. unfold steps_of.
  destruct (Dict.get "TimeSteps" d) as [v|]; [|eauto].
  destruct (H v eq_refl) as [l ->]. eauto.
Qed.

Lemma well_formed_set (k : string) (v : value num) (d : TimeIncrements.data num) :
  (k = "TimeSteps" -> exists l, v = VList l) ->
  well_formed d -> well_formed (Dict.set k v d).
Proof.
  intros Hv [Hnd Hts]. split; [now apply NoDup_keys_set|].
  intros v'. destruct (String.eqb_spec k "TimeSteps") as [->|Hne].
  - rewrite get_set_same. intros [= <-]. auto.
  - rewrite get_set_other by exact Hne. apply Hts.
Qed.

Lemma read_prop_well_formed (prop : Element num) (d d' : TimeIncrements.data num) :
  TimeIncrements.read_prop prop d = (inr tt, d') -> well_formed d -> well_formed d'.
Proof.
  intros Hrun Hwf. pose proof (read_prop_returns _ _ Hrun) as Hr.
  destruct (String.eqb (tag prop) "TimeSteps") eqn:E.
  - destruct (well_formed_steps Hwf) as [l0 Hl0].
    rewrite (read_prop_TimeSteps _ _ E Hr Hl0) in Hrun. injection Hrun as <-.
    apply well_formed_set; eauto.
  - rewrite (read_prop_other _ _ E) in Hrun. injection Hrun as <-.
    apply well_formed_set; auto.
    intros Ht. rewrite Ht in E. discriminate.
Qed.

Lemma read_well_formed (et : Element num) (d d' : TimeIncrements.data num) :
  TimeIncrements.read et d = (inr tt, d') -> well_formed d -> well_formed d'.
Proof.
  unfold TimeIncrements.read. generalize (children et) as cs.
  intros cs. revert d. induction cs as [|prop cs IH]; intros d; simpl.
  - unfold ret. now intros [= <-].
  - unfold bind.
    destruct (TimeIncrements.read_prop prop d) as [[e|[]] d1] eqn:E; [discriminate|].
    intros Hrun Hwf. apply (IH d1 Hrun). eapply read_prop_well_formed; eauto.
Qed.

End ReadWrite.

Section ReadClaims.
Context {num : Type} {PN : PyNum num}.

Lemma overwrite_from (k : string) (cs : list (Element num)) (init : option (value num)) :
  fold_left (overwrite k) cs init =
  match fold_left (overwrite k) cs None with
  | Some v => Some v
  | None => init
  end.
Proof.
  revert init. induction cs as [|prop cs IH]; intros init; simpl; auto.
  unfold overwrite at 2 4. destruct (String.eqb (tag prop) k).
  - rewrite (IH (Some (text prop))).
    now destruct (fold_left (overwrite k) cs None).
  - apply IH.
Qed.

(** What [read] does to a store whose [TimeSteps], if any, is a list, on
    children that are all readable. *)
Lemma read_children (cs : list (Element num)) (d : TimeIncrements.data num)
    (l0 : list attributes) :
  forallb readable_prop cs = true ->
  steps_of d = Some l0 ->
  exists d' : TimeIncrements.data num,
    for_each cs TimeIncrements.read_prop d = (inr tt, d') /\
    steps_of d' = Some (l0 ++ flat_map records_of_prop cs) /\
    (Dict.get "TimeSteps" d <> None \/
     existsb (fun prop => String.eqb (tag prop) "TimeSteps") cs = true ->
     Dict.get "TimeSteps" d' <> None) /\
    forall k, k <> "TimeSteps" ->
      Dict.get k d' = fold_left (overwrite k) cs (Dict.get k d).
Proof.
  revert d l0. induction cs as [|prop cs IH]; intros d l0 Hr Hd.
  - exists d. cbn [for_each flat_map existsb fold_left]. rewrite app_nil_r.
    repeat split; auto. intros [H|H]; [exact H | discriminate].
  - cbn [forallb] in Hr. apply andb_prop in Hr. destruct Hr as [Hp Hr].
    cbn [for_each flat_map existsb fold_left]. unfold bind.
    destruct (String.eqb (tag prop) "TimeSteps") eqn:E.
    + rewrite (read_prop_TimeSteps _ _ E Hp Hd).
      set (d1 := Dict.set "TimeSteps" _ d).
      assert (Hd1 : Dict.get "TimeSteps" d1
                    = Some (VList (l0 ++ map (@attrib num) (children prop))))
        by apply get_set_same.
      assert (Hs1 : steps_of d1 = Some (l0 ++ map (@attrib num) (children prop)))
        by (unfold steps_of; now rewrite Hd1).
      destruct (IH d1 _ Hr Hs1) as (d' & Hrun & Hsteps & Hts & Hother).
      exists d'. split; [exact Hrun|]. split; [|split].
      * rewrite Hsteps. unfold records_of_prop at 2. rewrite E.
        now rewrite app_assoc.
      * intros _. apply Hts. left. rewrite Hd1. discriminate.
      * intros k Hk. rewrite (Hother k Hk). f_equal.
        unfold overwrite. apply String.eqb_eq in E. rewrite E.
        destruct (String.eqb_spec "TimeSteps" k) as [<-|_]; [contradiction|].
        unfold d1. apply get_set_other. congruence.
    + rewrite (read_prop_other _ _ E).
      set (d1 := Dict.set (tag prop) (text prop) d).
      assert (Hne : tag prop <> "TimeSteps") by (now apply String.eqb_neq).
      assert (Hd1 : Dict.get "TimeSteps" d1 = Dict.get "TimeSteps" d)
        by (now apply get_set_other).
      assert (Hs1 : steps_of d1 = Some l0) by (unfold steps_of; now rewrite Hd1).
      destruct (IH d1 _ Hr Hs1) as (d' & Hrun & Hsteps & Hts & Hother).
      exists d'. split; [exact Hrun|]. split; [|split].
      * rewrite Hsteps. unfold records_of_prop at 2. now rewrite E.
      * rewrite Hd1 in Hts. cbn [orb]. exact Hts.
      * intros k Hk. rewrite (Hother k Hk). f_equal.
        unfold overwrite, d1.
        destruct (String.eqb_spec (tag prop) k) as [<-|Hk'].
        -- apply get_set_same.
        -- now apply get_set_other.
Qed.

Lemma steps_of_present (d : TimeIncrements.data num) (l : list attributes) :
  steps_of d = Some l -> Dict.get "TimeSteps" d <> None ->
  Dict.get "TimeSteps" d = Some (VList l).
Proof.
  intros Hs Hne. destruct (steps_of_get d Hs) as [H|[H _]]; [exact H | contradiction].
Qed.

(** C10.  On a node that has a [TimeSteps] child and whose [TimeSteps]
    children carry a [Len] that [int] accepts, and a store whose
    [TimeSteps], if there is one, is a list [l0]: [read] returns, the store
    then holds [l0] followed by the records of the node, and every other key
    holds the text of the last child with that tag, or what it held before
    when there is no such child.  Reading the same node once more returns
    too and leaves [l0] followed by the records of the node twice, with
    every other key as after the first reading. *)
Theorem read_appends_records (et : Element num) (d : TimeIncrements.data num)
    (l0 : list attributes) :
  readable et = true ->
  has_TimeSteps et = true ->
  steps_of d = Some l0 ->
  exists d' d'' : TimeIncrements.data num,
    TimeIncrements.read et d = (inr tt, d') /\
    Dict.get "TimeSteps" d' = Some (VList (l0 ++ records_of et)) /\
    (forall k, k <> "TimeSteps" ->
       Dict.get k d' = match last_text k et with
                       | Some v => Some v
                       | None => Dict.get k d
                       end) /\
    TimeIncrements.read et d' = (inr tt, d'') /\
    Dict.get "TimeSteps" d'' = Some (VList (l0 ++ records_of et ++ records_of et)) /\
    (forall k, k <> "TimeSteps" -> Dict.get k d'' = Dict.get k d').
Proof.
  intros Hr Hts Hd. unfold readable in Hr. unfold has_TimeSteps in Hts.
  destruct (read_children _ d Hr Hd) as (d' & Hrun & Hsteps & Hpresent & Hother).
  destruct (read_children _ d' Hr Hsteps) as (d'' & Hrun' & Hsteps' & Hpresent' & Hother').
  exists d', d''. unfold TimeIncrements.read, records_of, last_text.
  assert (Hlast : forall k, k <> "TimeSteps" ->
            Dict.get k d' = match fold_left (overwrite k) (children et) None with
                            | Some v => Some v
                            | None => Dict.get k d
                            end).
  { intros k Hk. rewrite (Hother k Hk). apply overwrite_from. }
  split; [exact Hrun|]. split; [|split; [|split; [|split]]].
  - apply steps_of_present; auto.
  - exact Hlast.
  - exact Hrun'.
  - rewrite app_assoc. apply steps_of_present; auto.
  - intros k Hk. rewrite (Hother' k Hk), overwrite_from.
    rewrite (Hlast k Hk).
    now destruct (fold_left (overwrite k) (children et) None).
Qed.

End ReadClaims.

Section RoundTrip.
Context {num : Type} {PN : PyNum num} {PL : PyNumLaws num}.

Lemma well_formed_items (d : TimeIncrements.data num) :
  well_formed d -> Forall item_ok d.
Proof.
  intros [Hnd Hts]. apply Forall_forall. intros [k v] Hin Hk.
  simpl in Hk. subst k. apply Hts. now apply get_in.
Qed.

Lemma write_item_written (item : string * value num) (et : Element num) :
  item_ok item ->
  TimeIncrements.write_item item et =
  (inr tt, mkElement (tag et) (text et) (attrib et) (children et ++ [written item])).
Proof.
  destruct item as [k v]. intros Hok.
  unfold TimeIncrements.write_item, written.
  destruct (String.eqb_spec k "TimeSteps") as [Hk|Hk].
  - destruct (Hok Hk) as [l Hv]. cbn [snd] in Hv. subst v. reflexivity.
  - pose proof (parameter_type_no_None k) as Hnone.
    destruct (Dict.get k TimeIncrements.parameter_type) as [[]|];
      try reflexivity.
    now contradiction Hnone.
Qed.

Lemma write_written (d : TimeIncrements.data num) (et : Element num) :
  Forall item_ok d ->
  TimeIncrements.__write__ d et =
  (inr tt, mkElement (tag et) (text et) (attrib et) (children et ++ map written d)).
Proof.
  unfold TimeIncrements.__write__.
  revert et. induction d as [|item d IH]; intros et Hok.
  - cbn [for_each map]. rewrite app_nil_r. now destruct et.
  - apply Forall_cons_iff in Hok. destruct Hok as [Hitem Hok].
    cbn [for_each map]. unfold bind. rewrite (write_item_written et Hitem).
    rewrite (IH _ Hok). cbn [tag text attrib children].
    now rewrite <- app_assoc.
Qed.

Lemma read_prop_written (item : string * value num) (acc : TimeIncrements.data num) :
  item_ok item ->
  Dict.get (fst item) acc = None ->
  TimeIncrements.read_prop (written item) acc = (inr tt, acc ++ [item]).
Proof.
  destruct item as [k v]. cbn [fst snd]. intros Hok Hfresh.
  destruct (String.eqb_spec k "TimeSteps") as [Hk|Hk].
  - destruct (Hok Hk) as [l Hv]. cbn [snd] in Hv. subst k v.
    assert (Hw : written ("TimeSteps", VList l)
                 = mkElement "TimeSteps" (@VNone num)
                     [("Len", str_of_nat (List.length l))]
                     (map (fun time => mkElement "TimeStep" (@VNone num) time []) l))
      by reflexivity.
    rewrite Hw.
    rewrite read_prop_TimeSteps with (l0 := []).
    + cbn [children app]. rewrite map_map. cbn [attrib]. rewrite map_id.
      now rewrite set_fresh.
    + reflexivity.
    + unfold readable_prop. cbn [tag attrib].
      change (Dict.get "Len" [("Len", str_of_nat (List.length l))])
        with (Some (str_of_nat (List.length l))).
      rewrite String.eqb_refl. cbv beta iota.
      now rewrite int_str_of_nat.
    + unfold steps_of. now rewrite Hfresh.
  - assert (Hw : written (k, v) = mkElement k v [] []).
    { unfold written. now destruct (String.eqb_spec k "TimeSteps"). }
    rewrite Hw, read_prop_other.
    + cbn [tag text]. now rewrite set_fresh.
    + cbn [tag]. now apply String.eqb_neq.
Qed.

Lemma read_written (d acc : TimeIncrements.data num) :
  NoDup (Dict.keys (acc ++ d)) ->
  Forall item_ok d ->
  for_each (map written d) TimeIncrements.read_prop acc = (inr tt, acc ++ d).
Proof.
  revert acc. induction d as [|item d IH]; intros acc Hnd Hok.
  - cbn [map for_each]. now rewrite app_nil_r.
  - apply Forall_cons_iff in Hok. destruct Hok as [Hitem Hok].
    cbn [map for_each]. unfold bind.
    rewrite read_prop_written; auto.
    + rewrite IH; auto.
      * now rewrite <- app_assoc.
      * now rewrite <- app_assoc.
    + apply get_none_not_in. unfold Dict.keys in *.
      rewrite map_app in Hnd. cbn [map] in Hnd.
      apply NoDup_remove_2 in Hnd. intros Hin. apply Hnd.
      apply in_or_app. now left.
Qed.

(** C7.  When [read] of a node into an empty container returns, with store
    [d1], then [__write__] of [d1] to a fresh node returns, and [read] of
    that node into an empty container returns with a store equal to [d1]:
    the same keys in the same order, each with the same value, the
    [TimeSteps] list with the same records. *)
Theorem write_read_roundtrip (et : Element num) (d1 : TimeIncrements.data num)
    (t : string) :
  TimeIncrements.read et [] = (inr tt, d1) ->
  exists et' : Element num,
    TimeIncrements.__write__ d1 (fresh num t) = (inr tt, et') /\
    TimeIncrements.read et' [] = (inr tt, d1).
Proof.
  intros Hread.
  assert (Hwf : well_formed d1).
  { eapply read_well_formed; [exact Hread|].
    split; [constructor | discriminate]. }
  pose proof (well_formed_items Hwf) as Hok.
  rewrite (write_written (fresh num t) Hok).
  eexists. split; [reflexivity|].
  unfold TimeIncrements.read. cbn [children fresh app].
  apply read_written with (acc := []); [apply Hwf | exact Hok].
Qed.

End RoundTrip.



Lemma write_read_roundtrip_witness :
  TimeIncrements.read sample_node [] = (inr tt, sample_store) /\
  exists et' : Element Z,
    TimeIncrements.__write__ sample_store (fresh Z "TimeIncrements") = (inr tt, et') /\
    TimeIncrements.read et' [] = (inr tt, sample_store).
Proof.
  split; [reflexivity|].
  apply write_read_roundtrip with (et := sample_node).
  reflexivity.
Defined.

Lemma read_appends_records_witness :
  readable sample_node = true /\
  has_TimeSteps sample_node = true /\
  steps_of (num := Z) [("Start", VStr "1")] = Some [] /\
  exists d' d'' : TimeIncrements.data Z,
    TimeIncrements.read sample_node [("Start", VStr "1")] = (inr tt, d') /\
    Dict.get "TimeSteps" d' = Some (VList ([] ++ records_of sample_node)) /\
    (forall k, k <> "TimeSteps" ->
       Dict.get k d' = match last_text k sample_node with
                       | Some v => Some v
                       | None => Dict.get k [("Start", VStr "1")]
                       end) /\
    TimeIncrements.read sample_node d' = (inr tt, d'') /\
    Dict.get "TimeSteps" d''
    = Some (VList ([] ++ records_of sample_node ++ records_of sample_node)) /\
    (forall k, k <> "TimeSteps" -> Dict.get k d'' = Dict.get k d').
Proof.
  split; [reflexivity|]. split; [reflexivity|]. split; [reflexivity|].
  apply read_appends_records; reflexivity.
Defined.

(** C10 as stated speaks for every node with a [TimeSteps] child.  On a
    node whose [TimeSteps] child has no [Len] attribute, and a store that
    already holds a [TimeSteps] list, [read] raises [KeyError] on [Len]
    before it appends: it does not return and the record of the node is
    not in the store. *)
Lemma read_appends_records_fails :
  ~ (forall (et : Element Z) (d : TimeIncrements.data Z) (l0 : list attributes),
       has_TimeSteps et = true ->
       Dict.get "TimeSteps" d = Some (VList l0) ->
       exists d' : TimeIncrements.data Z,
         TimeIncrements.read et d = (inr tt, d') /\
         Dict.get "TimeSteps" d' = Some (VList (l0 ++ records_of et))).
Proof.
  intros H.
  destruct (H node_without_Len sample_store _ eq_refl eq_refl) as (d' & Hrun & _).
  discriminate Hrun.
Qed.

Example read_without_Len :
  TimeIncrements.read node_without_Len sample_store
  = (inl (KeyError "Len"), sample_store).
Proof. reflexivity. Qed.

Example read_twice :
  exists d' : TimeIncrements.data Z,
    TimeIncrements.read sample_node [] = (inr tt, d') /\
    TimeIncrements.read sample_node d'
    = (inr tt,
       [ ("Start", VStr "4");
         ("TimeSteps",
          VList [ [("Step", "1"); ("ElapsedTime", "1"); ("Save", "true")];
                  [("Step", "1"); ("ElapsedTime", "2")];
                  [("Step", "1"); ("ElapsedTime", "1"); ("Save", "true")];
                  [("Step", "1"); ("ElapsedTime", "2")] ]);
         ("Duration", VNone) ]).
Proof. eexists. split; reflexivity. Qed.

(** * Claims about [Analysis] *)

Section AnalysisClaims.
Context {num : Type}.
Variable draw : Analysis.object (num := num) -> result unit.
Variable fill_regions : Analysis.object (num := num) -> Analysis.object (num := num) -> result unit.

(** C8, what the code does.  For a geometry with an [ID], [setGeometry]
    returns with the geometry under [Geometry] and its [ID] under the key
    [GeometryID].  The key of the schema is [GeometryId]: it is not written,
    it keeps the value it had or stays unset, and so does every key other
    than [Geometry] and [GeometryID]; [parameter_type] declares [GeometryId]
    and has no [GeometryID]. *)
Theorem setGeometry_writes_GeometryID (s : Analysis.self (num := num))
    (geom : Analysis.object) (id : value num) :
  Dict.get "ID" (Analysis.obj_data geom) = Some id ->
  exists s' : Analysis.self,
    Analysis.setGeometry geom s = (inr tt, s') /\
    Dict.get "Geometry" (Analysis.data s') = Some (Analysis.Ref geom) /\
    Dict.get "GeometryID" (Analysis.data s') = Some (Analysis.Plain id) /\
    Dict.get "GeometryId" (Analysis.data s') = Dict.get "GeometryId" (Analysis.data s) /\
    (forall k, k <> "Geometry" -> k <> "GeometryID" ->
       Dict.get k (Analysis.data s') = Dict.get k (Analysis.data s)) /\
    Analysis.context s' = Analysis.context s /\
    Dict.get "GeometryId" Analysis.parameter_type = Some PyInt /\
    Dict.get "GeometryID" Analysis.parameter_type = None.
Proof.
  intros Hid. unfold Analysis.setGeometry, Analysis.set_data.
  unfold bind, modify, lift, Dict.getitem. rewrite Hid. cbn [Analysis.data Analysis.context].
  eexists. split; [reflexivity|]. cbn [Analysis.data Analysis.context].
  assert (Hother : forall k, k <> "Geometry" -> k <> "GeometryID" ->
            Dict.get k (Dict.set "GeometryID" (Analysis.Plain id)
                          (Dict.set "Geometry" (Analysis.Ref geom) (Analysis.data s)))
            = Dict.get k (Analysis.data s)).
  { intros k H1 H2. rewrite !get_set_other; auto. }
  split; [|split; [|split; [|split; [|split; [|split]]]]].
  - rewrite get_set_other by discriminate. apply get_set_same.
  - apply get_set_same.
  - apply Hother; discriminate.
  - exact Hother.
  - reflexivity.
  - reflexivity.
  - reflexivity.
Qed.

(** C9, what the code does.  [setContext] assigns the instance attribute
    [context] and leaves [data] alone.  On an analysis with a geometry whose
    [draw] returns and without [Context] in [data], [showProblem] after
    [setContext(c)] still raises the [KeyError] that names [Context]. *)
Theorem setContext_not_seen_by_showProblem (s : Analysis.self (num := num))
    (c geometry : Analysis.object) :
  Dict.get "Geometry" (Analysis.data s) = Some (Analysis.Ref geometry) ->
  Dict.get "Context" (Analysis.data s) = None ->
  draw geometry = inr tt ->
  exists s' : Analysis.self,
    Analysis.setContext c s = (inr tt, s') /\
    Analysis.context s' = Some c /\
    Analysis.data s' = Analysis.data s /\
    Analysis.showProblem draw fill_regions s' =
    inl (KeyError "Analysis not properly defined. 'Context' is not available in data.").
Proof.
  intros Hg Hc Hdraw. eexists. split; [reflexivity|].
  cbn [Analysis.data Analysis.context]. repeat split.
  unfold Analysis.showProblem. cbn [Analysis.data].
  rewrite Hg, Hdraw. unfold Dict.mem. rewrite Hc. reflexivity.
Qed.

(** With [Context] in [data], as the document parser leaves it, the check
    passes. *)
Lemma showProblem_with_Context (s : Analysis.self (num := num))
    (ctx geometry : Analysis.object) :
  Dict.get "Geometry" (Analysis.data s) = Some (Analysis.Ref geometry) ->
  Dict.get "Context" (Analysis.data s) = Some (Analysis.Ref ctx) ->
  draw geometry = inr tt ->
  Dict.get "GeometryUsesMaterials" (Analysis.obj_data ctx) = None ->
  Analysis.showProblem draw fill_regions s =
  inr [ Analysis.Drawn geometry;
        Analysis.Printed "No materials assigned to regions. Only geometry is shown.";
        Analysis.Shown ].
Proof.
  intros Hg Hc Hdraw Hm.
  unfold Analysis.showProblem, Dict.mem, Dict.getitem.
  rewrite Hg, Hdraw, Hc. cbn [rbind negb]. now rewrite Hm.
Qed.

End AnalysisClaims.


Lemma setGeometry_writes_GeometryID_witness :
  Dict.get "ID" (Analysis.obj_data sample_geometry) = Some (VStr "2") /\
  exists s' : Analysis.self,
    Analysis.setGeometry sample_geometry sample_analysis = (inr tt, s') /\
    Dict.get "Geometry" (Analysis.data s') = Some (Analysis.Ref sample_geometry) /\
    Dict.get "GeometryID" (Analysis.data s') = Some (Analysis.Plain (VStr "2")) /\
    Dict.get "GeometryId" (Analysis.data s')
    = Dict.get "GeometryId" (Analysis.data sample_analysis) /\
    (forall k, k <> "Geometry" -> k <> "GeometryID" ->
       Dict.get k (Analysis.data s') = Dict.get k (Analysis.data sample_analysis)) /\
    Analysis.context s' = Analysis.context sample_analysis /\
    Dict.get "GeometryId" Analysis.parameter_type = Some PyInt /\
    Dict.get "GeometryID" Analysis.parameter_type = None.
Proof.
  split; [reflexivity|].
  apply setGeometry_writes_GeometryID. reflexivity.
Defined.

Example setGeometry_leaves_GeometryId :
  Analysis.setGeometry sample_geometry sample_analysis
  = (inr tt,
     Analysis.mkSelf
       [ ("ID", Analysis.Plain (VStr "1"));
         ("Name", Analysis.Plain (VStr "Steady state"));
         ("GeometryId", Analysis.Plain (VStr "1"));
         ("Geometry", Analysis.Ref sample_geometry);
         ("GeometryID", Analysis.Plain (VStr "2")) ]
       None).
Proof. reflexivity. Qed.


Lemma setContext_not_seen_by_showProblem_witness :
  Dict.get "Geometry" (Analysis.data with_geometry) = Some (Analysis.Ref sample_geometry) /\
  Dict.get "Context" (Analysis.data with_geometry) = None /\
  exists s' : Analysis.self,
    Analysis.setContext sample_context with_geometry = (inr tt, s') /\
    Analysis.context s' = Some sample_context /\
    Analysis.data s' = Analysis.data with_geometry /\
    Analysis.showProblem (fun _ => inr tt) (fun _ _ => inr tt) s' =
    inl (KeyError "Analysis not properly defined. 'Context' is not available in data.").
Proof.
  split; [reflexivity|]. split; [reflexivity|].
  apply setContext_not_seen_by_showProblem with (geometry := sample_geometry);
    reflexivity.
Defined.

(** * More about [setTimeSteps] *)

Lemma setTimeSteps_error_state {num : Type} {PN : PyNum num}
    (argsort : list num -> list nat) (times : list num) (saved : list bool)
    (d d' : TimeIncrements.data num) (e : exn) :
  TimeIncrements.setTimeSteps argsort times saved d = (inl e, d') -> d' = d.
Proof.
  unfold TimeIncrements.setTimeSteps.
  destruct (negb (Nat.eqb (List.length times) (List.length saved))).
  - unfold raise. now intros [= _ <-].
  - unfold bind, lift, get_state, modify.
    destruct (TimeIncrements.np_array times) as [e0|array];
      [now intros [= _ <-]|].
    destruct (TimeIncrements.take array (argsort array)) as [e1|ts];
      [now intros [= _ <-]|].
    destruct (TimeIncrements.take saved (argsort array)) as [e2|sv];
      [now intros [= _ <-]|].
    match goal with
    | |- match ?r with inl _ => _ | inr _ => _ end = _ -> _ =>
        destruct r as [e3|first]
    end; [now intros [= _ <-]|].
    match goal with
    | |- match ?r with inl _ => _ | inr _ => _ end = _ -> _ =>
        destruct r as [e4|rest]
    end; [now intros [= _ <-] | discriminate].
Qed.

(** X1.  Whatever [setTimeSteps] raises, it raises before it writes: the store
    after a call that did not return is the store before it.  (A run the
    embedding gives up on, with a list under [Start], is not spoken for.) *)
Theorem setTimeSteps_raises_unchanged {num : Type} {PN : PyNum num}
    (argsort : list num -> list nat) (times : list num) (saved : list bool)
    (d d' : TimeIncrements.data num) (e : exn) :
  e <> Unsupported ->
  TimeIncrements.setTimeSteps argsort times saved d = (inl e, d') -> d' = d.
Proof. intros _. apply setTimeSteps_error_state. Qed.

Section MoreSchedule.
Context {num : Type} {PN : PyNum num} {PL : PyNumLaws num}.
Variable argsort : list num -> list nat.
Hypothesis argsort_ok : argsort_contract argsort.


(** X3.  After a call that returns, [IncrementCount] is the decimal text of the
    number of input times, [int] reads that number back, and it is the
    number of records in [TimeSteps]. *)
Theorem setTimeSteps_count (times : list num) (saved : list bool)
    (d d' : TimeIncrements.data num) :
  TimeIncrements.setTimeSteps argsort times saved d = (inr tt, d') ->
  exists (count : string) (recs : list attributes),
    Dict.get "IncrementCount" d' = Some (VStr count) /\
    count = str_of_nat (List.length times) /\
    Dict.get "TimeSteps" d' = Some (VList recs) /\
    int count = inr (Z.of_nat (List.length recs)).
Proof.
  intros Hrun.
  destruct (setTimeSteps_returns argsort_ok _ _ _ Hrun)
    as (Hlen & Hne & Harr & start & Hs).
  rewrite (setTimeSteps_run argsort_ok saved d Hlen Hne Harr Hs) in Hrun.
  injection Hrun as <-.
  exists (str_of_nat (List.length times)).
  exists (schedule start (sorted_pairs argsort times saved)).
  split; [|split; [reflexivity|split]].
  - rewrite get_set_other by discriminate. apply get_set_same.
  - apply get_set_same.
  - rewrite schedule_length. unfold sorted_pairs.
    rewrite length_map, (argsort_length argsort_ok). apply int_str_of_nat.
Qed.

(** X4.  A call that returns writes [IncrementCount] and [TimeSteps] and no other
    key: every other key, [Start] among them, holds what it held. *)
Theorem setTimeSteps_other_keys (times : list num) (saved : list bool)
    (d d' : TimeIncrements.data num) (k : string) :
  TimeIncrements.setTimeSteps argsort times saved d = (inr tt, d') ->
  k <> "IncrementCount" -> k <> "TimeSteps" ->
  Dict.get k d' = Dict.get k d.
Proof.
  intros Hrun Hk1 Hk2.
  destruct (setTimeSteps_returns argsort_ok _ _ _ Hrun)
    as (Hlen & Hne & Harr & start & Hs).
  rewrite (setTimeSteps_run argsort_ok saved d Hlen Hne Harr Hs) in Hrun.
  injection Hrun as <-.
  rewrite !get_set_other; auto.
Qed.

End MoreSchedule.

Lemma set_comm {V : Type} (k k' : string) (v v' : V) (d : Dict.t V) :
  k <> k' -> Dict.get k d <> None ->
  Dict.set k v (Dict.set k' v' d) = Dict.set k' v' (Dict.set k v d).
Proof.
  intros Hne. induction d as [|[k0 v0] d IH]; simpl; [congruence|].
  destruct (String.eqb_spec k k0) as [->|Hk].
  - intros _. destruct (String.eqb_spec k' k0) as [->|Hk']; [congruence|].
    simpl. rewrite String.eqb_refl.
    destruct (String.eqb_spec k' k0); [contradiction | reflexivity].
  - intros Hget. destruct (String.eqb_spec k' k0) as [->|Hk']; simpl.
    + destruct (String.eqb_spec k k0); [contradiction|].
      now rewrite String.eqb_refl.
    + destruct (String.eqb_spec k k0); [contradiction|].
      destruct (String.eqb_spec k' k0); [contradiction|].
      now rewrite IH.
Qed.

Lemma forallb_snd_combine {A : Type} (l : list A) (flags : list bool) :
  List.length l = List.length flags ->
  forallb snd (combine l flags) = forallb (fun b => b) flags.
Proof.
  revert flags. induction l as [|x l IH]; intros [|b flags] Hlen;
    try discriminate; auto.
  simpl. f_equal. apply IH. now injection Hlen.
Qed.

Section ScheduleUse.
Context {num : Type} {PN : PyNum num} {PL : PyNumLaws num} {FL : PyFloatLaws num}.
Variable argsort : list num -> list nat.
Hypothesis argsort_ok : argsort_contract argsort.

(** X5.  [setTimeSteps] replaces, it does not add.  For two non-empty
    inputs of agreeing sizes whose times the array holds as they are, on a
    store whose [Start] is unset or a number that numpy takes as an operand:
    a second call leaves the store the first call would have left had it
    been made alone, and repeating a call changes nothing. *)
Theorem setTimeSteps_last_call_wins (times1 times2 : list num)
    (saved1 saved2 : list bool) (d : TimeIncrements.data num) :
  List.length times1 = List.length saved1 -> times1 <> [] ->
  forallb in_array times1 = true ->
  List.length times2 = List.length saved2 -> times2 <> [] ->
  forallb in_array times2 = true ->
  start_time d <> None ->
  exists d1 d2 : TimeIncrements.data num,
    TimeIncrements.setTimeSteps argsort times1 saved1 d = (inr tt, d1) /\
    TimeIncrements.setTimeSteps argsort times2 saved2 d1 = (inr tt, d2) /\
    TimeIncrements.setTimeSteps argsort times2 saved2 d = (inr tt, d2) /\
    TimeIncrements.setTimeSteps argsort times1 saved1 d1 = (inr tt, d1).
Proof.
  intros Hl1 Hn1 Ha1 Hl2 Hn2 Ha2 Hs.
  destruct (start_time d) as [start|] eqn:Hstart; [clear Hs | contradiction].
  pose proof (setTimeSteps_run argsort_ok saved1 d Hl1 Hn1 Ha1 Hstart) as Hrun1.
  pose proof (setTimeSteps_run argsort_ok saved2 d Hl2 Hn2 Ha2 Hstart) as Hrun2.
  set (d1 := Dict.set "TimeSteps" _ (Dict.set "IncrementCount" _ d)) in Hrun1.
  assert (Hstart1 : start_time d1 = Some start).
  { unfold start_time, Dict.get_default, d1 in *.
    rewrite !get_set_other by discriminate. exact Hstart. }
  assert (Hover : forall (c : value num) (v : value num),
            Dict.set "TimeSteps" v (Dict.set "IncrementCount" c d1)
            = Dict.set "TimeSteps" v (Dict.set "IncrementCount" c d)).
  { intros c v. unfold d1.
    rewrite (@set_comm _ "IncrementCount" "TimeSteps").
    - now rewrite !set_set.
    - discriminate.
    - rewrite get_set_same. discriminate. }
  exists d1. eexists. split; [exact Hrun1|]. split; [|split].
  - rewrite (setTimeSteps_run argsort_ok saved2 d1 Hl2 Hn2 Ha2 Hstart1). now rewrite Hover.
  - exact Hrun2.
  - rewrite (setTimeSteps_run argsort_ok saved1 d1 Hl1 Hn1 Ha1 Hstart1). now rewrite Hover.
Qed.

Lemma saved_times_schedule (prev : num) (ps : list (num * bool)) :
  forallb in_array (map fst ps) = true ->
  TimeIncrements.saved_times (schedule prev ps) =
  if forallb snd ps then inr (map to_float (map fst ps)) else inl (KeyError "Save").
Proof.
  revert prev. induction ps as [|[t s] ps IH]; intros prev Hin; auto.
  cbn [map fst forallb] in Hin. apply andb_prop in Hin. destruct Hin as [Ht Hin].
  cbn [schedule TimeIncrements.saved_times forallb map fst snd].
  unfold Dict.getitem at 1. rewrite temp_save.
  destruct s; cbn [rbind andb]; [|reflexivity].
  change (truthy "true") with true. cbv iota.
  rewrite temp_elapsed by exact Ht. cbn [rbind]. rewrite (IH _ Hin).
  now destruct (forallb snd ps).
Qed.

(** X6.  [getSavedTimeStep] on the schedule [setTimeSteps] has just written,
    for a non-empty input of agreeing sizes whose times the array holds as
    they are, on a store whose [Start] is unset or a number that numpy takes
    as an operand: when every flag of [saved] is set it returns the times in
    ascending order, as [getTimeStep] does; when one flag is not set it
    raises [KeyError] on [Save]. *)
Theorem getSavedTimeStep_after_setTimeSteps (times : list num) (saved : list bool)
    (d : TimeIncrements.data num) :
  List.length times = List.length saved -> times <> [] ->
  forallb in_array times = true -> start_time d <> None ->
  exists d' : TimeIncrements.data num,
    TimeIncrements.setTimeSteps argsort times saved d = (inr tt, d') /\
    TimeIncrements.getSavedTimeStep d' =
    if forallb (fun b => b) saved
    then TimeIncrements.getTimeStep d'
    else inl (KeyError "Save").
Proof.
  intros Hlen Hne Harr Hs.
  destruct (start_time d) as [start|] eqn:Hstart; [clear Hs | contradiction].
  rewrite (setTimeSteps_run argsort_ok saved d Hlen Hne Harr Hstart).
  eexists. split; [reflexivity|].
  unfold TimeIncrements.getSavedTimeStep, TimeIncrements.getTimeStep, Dict.getitem.
  rewrite get_set_same. cbn [rbind TimeIncrements.iterate].
  pose proof (sorted_pairs_in_array argsort_ok times saved Hlen Harr) as Hin.
  rewrite (saved_times_schedule _ _ Hin), (schedule_times _ _ Hin).
  rewrite (forallb_perm snd (sorted_pairs_perm argsort_ok times saved Hlen)).
  now rewrite (forallb_snd_combine times saved Hlen).
Qed.

Lemma temp_getitem_Step (step t : num) (s : bool) :
  Dict.getitem (TimeIncrements.temp step t s) "Step" = inr (str step).
Proof. destruct s; reflexivity. Qed.

Lemma temp_getitem_ElapsedTime (step t : num) (s : bool) :
  Dict.getitem (TimeIncrements.temp step t s) "ElapsedTime" = inr (str t).
Proof. destruct s; reflexivity. Qed.

Lemma temp_Save_default (step t : num) (s : bool) :
  Dict.get_default "Save" "false" (TimeIncrements.temp step t s)
  = if s then "true" else "false".
Proof. destruct s; reflexivity. Qed.

Lemma rows_of_schedule (i : nat) (prev : num) (ps : list (num * bool)) :
  comprehension
    (fun ix : nat * attributes =>
       let (i, x) := ix in
       try step <- Dict.getitem x "Step";
       try elapsed <- Dict.getitem x "ElapsedTime";
       inr [str_of_nat (i + 1); step; elapsed; Dict.get_default "Save" "false" x])
    (combine (seq i (List.length (schedule prev ps))) (schedule prev ps))
  = inr (table_rows i prev ps).
Proof.
  revert i prev. induction ps as [|[t s] ps IH]; intros i prev; auto.
  cbn [schedule List.length seq combine comprehension table_rows].
  rewrite temp_getitem_Step, temp_getitem_ElapsedTime, temp_Save_default.
  cbn [rbind]. now rewrite IH.
Qed.

Lemma table_rows_length (i : nat) (prev : num) (ps : list (num * bool)) :
  List.length (table_rows i prev ps) = List.length ps.
Proof.
  revert i prev. induction ps as [|[t s] ps IH]; intros i prev; simpl; auto.
Qed.

(** X7.  [showTimeSteps] on the schedule [setTimeSteps] has just written,
    for a non-empty input of agreeing sizes whose times the array holds as
    they are, on a store whose [Start] is unset or a number that numpy takes
    as an operand, does not raise: it gives the heading row and then one row
    per time in ascending order, numbered from 1, with the step, the time,
    and ["true"] or ["false"] for the flag, ["false"] standing in for the
    absent [Save]. *)
Theorem showTimeSteps_after_setTimeSteps (times : list num) (saved : list bool)
    (d : TimeIncrements.data num) (start : num) :
  List.length times = List.length saved -> times <> [] ->
  forallb in_array times = true ->
  start_time d = Some start ->
  exists d' : TimeIncrements.data num,
    TimeIncrements.setTimeSteps argsort times saved d = (inr tt, d') /\
    TimeIncrements.showTimeSteps d' =
    inr (["0"; ""; "0"; ""] :: table_rows 0 start (sorted_pairs argsort times saved)) /\
    List.length (table_rows 0 start (sorted_pairs argsort times saved))
    = List.length times.
Proof.
  intros Hlen Hne Harr Hstart.
  rewrite (setTimeSteps_run argsort_ok saved d Hlen Hne Harr Hstart).
  eexists. split; [reflexivity|]. split.
  - unfold TimeIncrements.showTimeSteps, Dict.getitem.
    rewrite get_set_same. cbn [rbind TimeIncrements.iterate].
    now rewrite rows_of_schedule.
  - rewrite table_rows_length. unfold sorted_pairs.
    rewrite length_map. apply (argsort_length argsort_ok).
Qed.

End ScheduleUse.

(** * Distinct times leave no choice *)

Lemma strictly_sorted_perm_eq (l1 l2 : list Z) :
  StronglySorted Z.lt l1 -> StronglySorted Z.lt l2 -> Permutation l1 l2 -> l1 = l2.
Proof.
  revert l2. induction l1 as [|a l1 IH]; intros l2 H1 H2 Hp.
  - apply Permutation_nil in Hp. now subst.
  - destruct l2 as [|b l2]; [apply Permutation_sym, Permutation_nil in Hp; discriminate|].
    apply StronglySorted_inv in H1. destruct H1 as [H1 Ha].
    apply StronglySorted_inv in H2. destruct H2 as [H2 Hb].
    assert (a = b).
    { assert (Hin1 : In a (b :: l2)) by (apply (Permutation_in _ Hp); now left).
      assert (Hin2 : In b (a :: l1))
        by (apply (Permutation_in _ (Permutation_sym Hp)); now left).
      rewrite Forall_forall in Ha, Hb.
      destruct Hin1 as [->|Hin1]; [reflexivity|].
      destruct Hin2 as [->|Hin2]; [reflexivity|].
      specialize (Ha _ Hin2). specialize (Hb _ Hin1). lia. }
    subst b. f_equal. apply IH; auto. now apply Permutation_cons_inv in Hp.
Qed.

Lemma ascending_NoDup_strict (l : list Z) :
  ascending l -> NoDup l -> StronglySorted Z.lt l.
Proof.
  unfold ascending. induction l as [|a l IH]; intros Hs Hnd; [constructor|].
  apply Sorted_inv in Hs. destruct Hs as [Hs Hhd].
  apply NoDup_cons_iff in Hnd. destruct Hnd as [Hnin Hnd].
  specialize (IH Hs Hnd). constructor; [exact IH|].
  destruct l as [|b l]; [constructor|].
  apply HdRel_inv in Hhd. simpl in Hhd. apply Z.leb_le in Hhd.
  assert (a < b)%Z by (assert (a <> b) by (intros ->; apply Hnin; now left); lia).
  apply StronglySorted_inv in IH. destruct IH as [_ Hall].
  constructor; [assumption|].
  eapply Forall_impl; [|exact Hall]. simpl. intros c Hc. lia.
Qed.

Lemma map_nth_seq_all {A : Type} (l : list A) (a : A) :
  map (fun i => nth i l a) (seq 0 (List.length l)) = l.
Proof.
  induction l as [|x l IH]; auto.
  simpl. rewrite <- seq_shift, map_map. now rewrite IH.
Qed.

Lemma map_eq_inj_in {A B : Type} (f : A -> B) (p q : list A) :
  (forall i j, In i p -> In j q -> f i = f j -> i = j) ->
  map f p = map f q -> p = q.
Proof.
  revert q. induction p as [|i p IH]; intros [|j q] Hinj Heq; try discriminate; auto.
  simpl in Heq. injection Heq as Hh Ht.
  f_equal.
  - apply Hinj; simpl; auto.
  - apply IH; auto. intros i' j' Hi Hj. apply Hinj; simpl; auto.
Qed.

Lemma argsort_unique_on_distinct (a1 a2 : list Z -> list nat) (times : list Z) :
  argsort_contract a1 -> argsort_contract a2 -> NoDup times ->
  a1 times = a2 times.
Proof.
  intros H1 H2 Hnd.
  destruct (H1 times) as [Hp1 Hs1]. destruct (H2 times) as [Hp2 Hs2].
  set (f := fun i => nth i times zero) in *.
  assert (Hv1 : Permutation (map f (a1 times)) times).
  { rewrite <- (map_nth_seq_all times zero) at 2. now apply Permutation_map. }
  assert (Hv2 : Permutation (map f (a2 times)) times).
  { rewrite <- (map_nth_seq_all times zero) at 2. now apply Permutation_map. }
  apply (map_eq_inj_in f).
  - intros i j Hi Hj. unfold f.
    apply (proj1 (NoDup_nth times zero) Hnd).
    + now apply (argsort_in_range H1).
    + now apply (argsort_in_range H2).
  - apply strictly_sorted_perm_eq.
    + apply ascending_NoDup_strict; auto.
      apply (Permutation_NoDup (Permutation_sym Hv1) Hnd).
    + apply ascending_NoDup_strict; auto.
      apply (Permutation_NoDup (Permutation_sym Hv2) Hnd).
    + now rewrite Hv1, Hv2.
Qed.

(** X8.  On integer times without a repeated value, the order [np.argsort]
    chooses is the only one there is: any two sorts within the contract make
    [setTimeSteps] do the same, on every [saved] and every store. *)
Theorem setTimeSteps_distinct_times (a1 a2 : list Z -> list nat)
    (times : list Z) (saved : list bool) (d : TimeIncrements.data Z) :
  argsort_contract a1 -> argsort_contract a2 -> NoDup times ->
  TimeIncrements.setTimeSteps a1 times saved d =
  TimeIncrements.setTimeSteps a2 times saved d.
Proof.
  intros H1 H2 Hnd. unfold TimeIncrements.setTimeSteps.
  destruct (negb (Nat.eqb (List.length times) (List.length saved))); [reflexivity|].
  unfold bind at 1 3, lift at 1 5, TimeIncrements.np_array.
  destruct (forallb in_array times); [|reflexivity].
  now rewrite (argsort_unique_on_distinct H1 H2 Hnd).
Qed.

(** * More about [read] and [__write__] *)

Lemma for_each_app {S A : Type} (l1 l2 : list A) (body : A -> M S unit) (s s1 : S) :
  for_each l1 body s = (inr tt, s1) ->
  for_each (l1 ++ l2) body s = for_each l2 body s1.
Proof.
  revert s. induction l1 as [|a l1 IH]; simpl; intros s.
  - unfold ret. now intros [= ->].
  - unfold bind. destruct (body a s) as [[e|[]] s']; [discriminate|]. apply IH.
Qed.

Section StoreInvariant.
Context {num : Type} {PN : PyNum num}.

(** What [read_prop] does on a [TimeSteps] child it cannot get through. *)
Lemma read_prop_not_readable (prop : Element num) (d : TimeIncrements.data num) :
  String.eqb (tag prop) "TimeSteps" = true ->
  readable_prop prop = false ->
  let d1 := if Dict.mem "TimeSteps" d then d else Dict.set "TimeSteps" (VList []) d in
  TimeIncrements.read_prop prop d =
  (match Dict.get "Len" (attrib prop) with
   | None => inl (KeyError "Len")
   | Some len => match int len with
                 | inl e => inl e
                 | inr _ => inr tt
                 end
   end, d1).
Proof.
  intros E Hr. unfold TimeIncrements.read_prop, readable_prop in *. rewrite E in *.
  unfold bind at 1, get_state.
  destruct (Dict.mem "TimeSteps" d); cbn [negb].
  - unfold bind at 1, ret. unfold bind at 1, lift at 1, Dict.getitem.
    destruct (Dict.get "Len" (attrib prop)) as [len|]; [|reflexivity].
    unfold bind at 1, lift at 1. destruct (int len); [reflexivity | discriminate].
  - unfold bind at 1, modify at 1. unfold bind at 1, lift at 1, Dict.getitem.
    destruct (Dict.get "Len" (attrib prop)) as [len|]; [|reflexivity].
    unfold bind at 1, lift at 1. destruct (int len); [reflexivity | discriminate].
Qed.

Lemma read_prop_keeps_well_formed (prop : Element num)
    (d d' : TimeIncrements.data num) (r : result unit) :
  TimeIncrements.read_prop prop d = (r, d') -> well_formed d -> well_formed d'.
Proof.
  intros Hrun Hwf.
  destruct (String.eqb (tag prop) "TimeSteps") eqn:E.
  - destruct (readable_prop prop) eqn:Hr.
    + destruct (well_formed_steps Hwf) as [l0 Hl0].
      rewrite (read_prop_TimeSteps _ _ E Hr Hl0) in Hrun. injection Hrun as _ <-.
      apply well_formed_set; eauto.
    + rewrite (read_prop_not_readable _ _ E Hr) in Hrun. injection Hrun as _ <-.
      destruct (Dict.mem "TimeSteps" d); [exact Hwf|].
      apply well_formed_set; eauto.
  - rewrite (read_prop_other _ _ E) in Hrun. injection Hrun as _ <-.
    apply well_formed_set; auto.
    intros Ht. rewrite Ht in E. discriminate.
Qed.

(** X9.  [read] keeps a store well formed, whether it returns or raises half way:
    no key appears twice and [TimeSteps], when there, holds a list. *)
Theorem read_keeps_well_formed (et : Element num) (d d' : TimeIncrements.data num)
    (r : result unit) :
  TimeIncrements.read et d = (r, d') -> well_formed d -> well_formed d'.
Proof.
  unfold TimeIncrements.read. generalize (children et) as cs.
  intros cs. revert d. induction cs as [|prop cs IH]; intros d; simpl.
  - unfold ret. now intros [= _ <-].
  - unfold bind.
    destruct (TimeIncrements.read_prop prop d) as [[e|[]] d1] eqn:E.
    + intros [= _ <-] Hwf. eapply read_prop_keeps_well_formed; eauto.
    + intros Hrun Hwf. apply (IH d1 Hrun). eapply read_prop_keeps_well_formed; eauto.
Qed.

(** X10.  [setTimeSteps] keeps a store well formed, whether it returns or raises,
    for any sort it is given.  (A run the embedding gives up on is not
    spoken for.) *)
Theorem setTimeSteps_keeps_well_formed (argsort : list num -> list nat)
    (times : list num) (saved : list bool) (d d' : TimeIncrements.data num)
    (r : result unit) :
  r <> inl Unsupported ->
  TimeIncrements.setTimeSteps argsort times saved d = (r, d') ->
  well_formed d -> well_formed d'.
Proof.
  intros _ Hrun Hwf. destruct r as [e|[]].
  - now rewrite (setTimeSteps_error_state _ _ _ _ Hrun).
  - revert Hrun. unfold TimeIncrements.setTimeSteps.
    destruct (negb (Nat.eqb (List.length times) (List.length saved)));
      [discriminate|].
    unfold bind, lift, get_state, modify.
    destruct (TimeIncrements.np_array times) as [e0|array]; [discriminate|].
    destruct (TimeIncrements.take array (argsort array)) as [e1|ts]; [discriminate|].
    destruct (TimeIncrements.take saved (argsort array)) as [e2|sv]; [discriminate|].
    match goal with
    | |- match ?x with inl _ => _ | inr _ => _ end = _ -> _ => destruct x as [e3|first]
    end; [discriminate|].
    match goal with
    | |- match ?x with inl _ => _ | inr _ => _ end = _ -> _ => destruct x as [e4|rest]
    end; [discriminate|].
    intros [= <-].
    apply well_formed_set; [eauto|].
    apply well_formed_set; [discriminate | exact Hwf].
Qed.

End StoreInvariant.

Section WriteFacts.
Context {num : Type} {PN : PyNum num} {PL : PyNumLaws num}.

(** X11.  Any well-formed store, however it was built, survives [__write__] to a
    fresh node followed by [read] into an empty container: the same keys in
    the same order with the same values. *)
Theorem write_read_well_formed (d : TimeIncrements.data num) (t : string) :
  well_formed d ->
  exists et' : Element num,
    TimeIncrements.__write__ d (fresh num t) = (inr tt, et') /\
    TimeIncrements.read et' [] = (inr tt, d).
Proof.
  intros Hwf. pose proof (well_formed_items Hwf) as Hok.
  rewrite (write_written (fresh num t) Hok).
  eexists. split; [reflexivity|].
  unfold TimeIncrements.read. cbn [children fresh app].
  apply read_written with (acc := []); [apply Hwf | exact Hok].
Qed.

(** X12.  [__write__] of a well-formed store adds one child per key, in the order
    of the store and tagged with the key, after the children the node had;
    the node's tag, text and attributes stay. *)
Theorem write_appends_children (d : TimeIncrements.data num) (et : Element num) :
  well_formed d ->
  exists cs : list (Element num),
    TimeIncrements.__write__ d et =
    (inr tt, mkElement (tag et) (text et) (attrib et) (children et ++ cs)) /\
    map (@tag num) cs = Dict.keys d.
Proof.
  intros Hwf. pose proof (well_formed_items Hwf) as Hok.
  exists (map written d). split; [now apply write_written|].
  unfold Dict.keys. rewrite map_map. apply map_ext.
  intros [k v]. unfold written. cbn [fst].
  destruct (String.eqb k "TimeSteps"); [destruct v|]; reflexivity.
Qed.

(** X13.  The [Len] that [__write__] gives a [TimeSteps] child is the number of
    [TimeStep] children it gives it: [int] of one is the other. *)
Theorem write_Len_is_child_count (d : TimeIncrements.data num) (t : string)
    (et' prop : Element num) :
  well_formed d ->
  TimeIncrements.__write__ d (fresh num t) = (inr tt, et') ->
  In prop (children et') -> tag prop = "TimeSteps" ->
  exists len : string,
    Dict.get "Len" (attrib prop) = Some len /\
    int len = inr (Z.of_nat (List.length (children prop))) /\
    steps_of d = Some (map (@attrib num) (children prop)).
Proof.
  intros Hwf Hrun Hin Htag. pose proof (well_formed_items Hwf) as Hok.
  rewrite (write_written (fresh num t) Hok) in Hrun. injection Hrun as <-.
  cbn [children fresh app] in Hin. apply in_map_iff in Hin.
  destruct Hin as ([k v] & <- & Hitem).
  assert (Hk : k = "TimeSteps").
  { unfold written in Htag. destruct (String.eqb_spec k "TimeSteps"); [assumption|].
    exact Htag. }
  subst k. rewrite Forall_forall in Hok.
  destruct (Hok _ Hitem eq_refl) as [l Hv]. cbn [snd] in Hv. subst v.
  assert (Hw : written ("TimeSteps", VList l)
               = mkElement "TimeSteps" (@VNone num)
                   [("Len", str_of_nat (List.length l))]
                   (map (fun time => mkElement "TimeStep" (@VNone num) time []) l))
    by reflexivity.
  rewrite Hw. cbn [attrib children].
  exists (str_of_nat (List.length l)). split; [reflexivity|]. split.
  - rewrite length_map. apply int_str_of_nat.
  - rewrite map_map. cbn [attrib]. rewrite map_id.
    unfold steps_of. destruct Hwf as [Hnd _].
    erewrite get_in; eauto. reflexivity.
Qed.

End WriteFacts.

Section ReadFacts.
Context {num : Type} {PN : PyNum num}.

(** X14.  [read] looks at the tag and the text of each child and at the children
    of a [TimeSteps] child; of the attributes of a child it only needs [Len]
    to be there and to be a number.  Two nodes whose children agree on tag,
    text and children are read alike: the value of [Len] plays no part, and
    need not be the number of [TimeStep] children. *)
Theorem read_ignores_attributes (et et' : Element num) (d : TimeIncrements.data num) :
  Forall2
    (fun p p' : Element num =>
       tag p = tag p' /\ text p = text p' /\ children p = children p')
    (children et) (children et') ->
  readable et = true -> readable et' = true ->
  steps_of d <> None ->
  TimeIncrements.read et d = TimeIncrements.read et' d.
Proof.
  unfold TimeIncrements.read, readable.
  generalize (children et) as cs, (children et') as cs'.
  intros cs cs' Hrel. revert d.
  induction Hrel as [|p p' cs cs' (Ht & Hx & Hc) Hrel IH]; intros d Hr Hr' Hd; auto.
  cbn [forallb] in Hr, Hr'.
  apply andb_prop in Hr. destruct Hr as [Hp Hr].
  apply andb_prop in Hr'. destruct Hr' as [Hp' Hr'].
  destruct (steps_of d) as [l0|] eqn:Hl0; [clear Hd | contradiction].
  cbn [for_each]. unfold bind.
  destruct (String.eqb (tag p) "TimeSteps") eqn:E.
  - assert (E' : String.eqb (tag p') "TimeSteps" = true) by (now rewrite <- Ht).
    rewrite (read_prop_TimeSteps _ _ E Hp Hl0), (read_prop_TimeSteps _ _ E' Hp' Hl0).
    rewrite Hc. apply IH; auto.
    unfold steps_of. rewrite get_set_same. discriminate.
  - assert (E' : String.eqb (tag p') "TimeSteps" = false) by (now rewrite <- Ht).
    rewrite (read_prop_other _ _ E), (read_prop_other _ _ E').
    rewrite Ht, Hx. apply IH; auto.
    unfold steps_of. rewrite get_set_other.
    + fold (steps_of d). rewrite Hl0. discriminate.
    + rewrite <- Ht. now apply String.eqb_neq.
Qed.

(** X15.  [read] stops at the first [TimeSteps] child without a [Len] attribute
    and raises [KeyError] on [Len].  What the children before it brought is
    in the store, an empty [TimeSteps] list has been put there if there was
    none, and neither that child nor a later one is read. *)
Theorem read_missing_Len (t : string) (x : value num) (a : attributes)
    (pre post : list (Element num)) (bad : Element num)
    (d : TimeIncrements.data num) :
  forallb readable_prop pre = true ->
  tag bad = "TimeSteps" -> Dict.get "Len" (attrib bad) = None ->
  steps_of d <> None ->
  exists d1 : TimeIncrements.data num,
    TimeIncrements.read (mkElement t x a pre) d = (inr tt, d1) /\
    TimeIncrements.read (mkElement t x a (pre ++ bad :: post)) d =
    (inl (KeyError "Len"),
     if Dict.mem "TimeSteps" d1 then d1 else Dict.set "TimeSteps" (VList []) d1).
Proof.
  intros Hpre Htag Hlen Hd.
  destruct (steps_of d) as [l0|] eqn:Hl0; [clear Hd | contradiction].
  destruct (read_children _ d Hpre Hl0) as (d1 & Hrun & _).
  exists d1. unfold TimeIncrements.read. cbn [children].
  split; [exact Hrun|].
  erewrite for_each_app; [|exact Hrun]. cbn [for_each]. unfold bind.
  rewrite read_prop_not_readable.
  - now rewrite Hlen.
  - rewrite Htag. reflexivity.
  - unfold readable_prop. now rewrite Htag, Hlen.
Qed.

Lemma read_without_TimeSteps (cs : list (Element num))
    (d d' : TimeIncrements.data num) (r : result unit) :
  existsb (fun prop => String.eqb (tag prop) "TimeSteps") cs = false ->
  for_each cs TimeIncrements.read_prop d = (r, d') ->
  Dict.get "TimeSteps" d' = Dict.get "TimeSteps" d.
Proof.
  revert d. induction cs as [|prop cs IH]; intros d Hex; cbn [for_each existsb] in *.
  - unfold ret. now intros [= _ <-].
  - apply orb_false_elim in Hex. destruct Hex as [E Hex].
    unfold bind. rewrite (read_prop_other _ _ E).
    intros Hrun. rewrite (IH _ Hex Hrun).
    apply get_set_other. now apply String.eqb_neq.
Qed.

(** X16.  [read] into an empty container followed by the two getters.  When the
    node has a [TimeSteps] child, they work on the attributes of the
    [TimeStep] elements in document order; when it has none, [read] returns
    and both getters raise [KeyError] on [TimeSteps]. *)
Theorem getters_after_read (et : Element num) :
  readable et = true ->
  exists d' : TimeIncrements.data num,
    TimeIncrements.read et [] = (inr tt, d') /\
    TimeIncrements.getTimeStep d' =
    (if has_TimeSteps et
     then comprehension TimeIncrements.elapsed_time (records_of et)
     else inl (KeyError "TimeSteps")) /\
    TimeIncrements.getSavedTimeStep d' =
    (if has_TimeSteps et
     then TimeIncrements.saved_times (records_of et)
     else inl (KeyError "TimeSteps")).
Proof.
  intros Hr. unfold readable in Hr.
  assert (H0 : steps_of (num := num) [] = Some []) by reflexivity.
  destruct (read_children _ [] Hr H0) as (d' & Hrun & Hsteps & Hpresent & _).
  exists d'. split; [exact Hrun|].
  unfold TimeIncrements.getTimeStep, TimeIncrements.getSavedTimeStep, Dict.getitem.
  unfold has_TimeSteps.
  destruct (existsb _ (children et)) eqn:Hex.
  - rewrite (steps_of_present _ Hsteps (Hpresent (or_intror eq_refl))).
    split; reflexivity.
  - rewrite (read_without_TimeSteps _ _ Hex Hrun). split; reflexivity.
Qed.

End ReadFacts.

(** * More about [Analysis] *)

Section AnalysisFacts.
Context {num : Type}.
Variable draw : Analysis.object (num := num) -> result unit.
Variable fill_regions :
  Analysis.object (num := num) -> Analysis.object (num := num) -> result unit.

(** X17.  [setGeometry] with a geometry that has no [ID] raises [KeyError] on
    [ID], and by then [Geometry] already refers to the new geometry: the
    analysis is left with the new geometry and the identity it had. *)
Theorem setGeometry_without_ID (s : Analysis.self (num := num))
    (geom : Analysis.object) :
  Dict.get "ID" (Analysis.obj_data geom) = None ->
  exists s' : Analysis.self,
    Analysis.setGeometry geom s = (inl (KeyError "ID"), s') /\
    Dict.get "Geometry" (Analysis.data s') = Some (Analysis.Ref geom) /\
    forall k, k <> "Geometry" ->
      Dict.get k (Analysis.data s') = Dict.get k (Analysis.data s).
Proof.
  intros Hid. unfold Analysis.setGeometry, Analysis.set_data.
  unfold bind, modify, lift, Dict.getitem. rewrite Hid.
  eexists. split; [reflexivity|]. cbn [Analysis.data]. split.
  - apply get_set_same.
  - intros k Hk. now apply get_set_other.
Qed.

(** X18.  [setGeometry] replaces: after two calls the analysis is exactly what the
    second call alone would have made of it. *)
Theorem setGeometry_last_call_wins (s : Analysis.self (num := num))
    (g1 g2 : Analysis.object) :
  Dict.get "ID" (Analysis.obj_data g1) <> None ->
  Dict.get "ID" (Analysis.obj_data g2) <> None ->
  exists s1 s2 : Analysis.self,
    Analysis.setGeometry g1 s = (inr tt, s1) /\
    Analysis.setGeometry g2 s1 = (inr tt, s2) /\
    Analysis.setGeometry g2 s = (inr tt, s2).
Proof.
  intros H1 H2.
  destruct (Dict.get "ID" (Analysis.obj_data g1)) as [id1|] eqn:E1; [|contradiction].
  destruct (Dict.get "ID" (Analysis.obj_data g2)) as [id2|] eqn:E2; [|contradiction].
  unfold Analysis.setGeometry, Analysis.set_data.
  unfold bind, modify, lift, Dict.getitem. rewrite E1, E2.
  cbn [Analysis.data Analysis.context].
  eexists. eexists. split; [reflexivity|]. split; [reflexivity|].
  do 2 f_equal. cbn [Analysis.data]. symmetry.
  rewrite (@set_comm _ "Geometry" "GeometryID").
  - now rewrite !set_set.
  - discriminate.
  - rewrite get_set_same. discriminate.
Qed.

(** X19.  With a geometry that [draw] accepts, whether [showProblem] raises the
    [KeyError] that names [Context] is decided by the key [Context] of
    [data] alone, as long as the colouring of the regions does not raise
    that very error itself. *)
Theorem showProblem_Context_iff (s : Analysis.self (num := num))
    (geometry : Analysis.object) :
  Dict.get "Geometry" (Analysis.data s) = Some (Analysis.Ref geometry) ->
  draw geometry = inr tt ->
  (forall ctx,
     fill_regions geometry ctx <>
     inl (KeyError "Analysis not properly defined. 'Context' is not available in data.")) ->
  (Analysis.showProblem draw fill_regions s =
   inl (KeyError "Analysis not properly defined. 'Context' is not available in data.")
   <-> Dict.get "Context" (Analysis.data s) = None).
Proof.
  intros Hg Hdraw Hfill.
  unfold Analysis.showProblem, Dict.mem, Dict.getitem. rewrite Hg, Hdraw.
  cbn [rbind].
  destruct (Dict.get "Context" (Analysis.data s)) as [[v|ctx]|]; cbn [negb rbind].
  - split; discriminate.
  - destruct (Dict.get "GeometryUsesMaterials" (Analysis.obj_data ctx));
      cbn [negb]; [|split; discriminate].
    specialize (Hfill ctx).
    destruct (fill_regions geometry ctx) as [e|[]]; cbn [rbind];
      split; try discriminate.
    intros H. exfalso. apply Hfill. injection H as ->. reflexivity.
  - split; reflexivity.
Qed.

End AnalysisFacts.

(** * The added statements on the sample data *)

Ltac concrete_well_formed :=
  split;
  [ repeat constructor; simpl; intuition discriminate
  | intros v Hv; simpl in Hv; try discriminate; injection Hv as <-; eauto ].

Lemma setTimeSteps_raises_unchanged_witness :
  TimeIncrements.setTimeSteps argsort_stable [] [] prior_schedule
  = (inl IndexError, prior_schedule) /\
  prior_schedule = prior_schedule.
Proof.
  split; [reflexivity|].
  apply (setTimeSteps_raises_unchanged argsort_stable [] [] prior_schedule
           (d' := prior_schedule) (e := IndexError)).
  - discriminate.
  - reflexivity.
Defined.


Lemma setTimeSteps_count_witness :
  TimeIncrements.setTimeSteps argsort_stable [5; 2; 10]%Z [false; true; true]
    prior_schedule = (inr tt, rebuilt_schedule) /\
  exists (count : string) (recs : list attributes),
    Dict.get "IncrementCount" rebuilt_schedule = Some (VStr count) /\
    count = str_of_nat 3 /\
    Dict.get "TimeSteps" rebuilt_schedule = Some (VList recs) /\
    int count = inr (Z.of_nat (List.length recs)).
Proof.
  split; [reflexivity|].
  apply (setTimeSteps_count argsort_stable_contract [5; 2; 10]%Z [false; true; true]
           prior_schedule).
  reflexivity.
Defined.

Lemma setTimeSteps_other_keys_witness :
  TimeIncrements.setTimeSteps argsort_stable [5; 2; 10]%Z [false; true; true]
    prior_schedule = (inr tt, rebuilt_schedule) /\
  Dict.get "Start" rebuilt_schedule = Dict.get "Start" prior_schedule.
Proof.
  split; [reflexivity|].
  apply (setTimeSteps_other_keys argsort_stable_contract [5; 2; 10]%Z
           [false; true; true] prior_schedule (k := "Start"));
    [reflexivity | discriminate | discriminate].
Defined.

Lemma setTimeSteps_last_call_wins_witness :
  exists d1 d2 : TimeIncrements.data Z,
    TimeIncrements.setTimeSteps argsort_stable [4%Z] [true] prior_schedule
    = (inr tt, d1) /\
    TimeIncrements.setTimeSteps argsort_stable [5; 2; 10]%Z [false; true; true] d1
    = (inr tt, d2) /\
    TimeIncrements.setTimeSteps argsort_stable [5; 2; 10]%Z [false; true; true]
      prior_schedule = (inr tt, d2) /\
    TimeIncrements.setTimeSteps argsort_stable [4%Z] [true] d1 = (inr tt, d1).
Proof.
  apply (setTimeSteps_last_call_wins argsort_stable_contract
           (times1 := [4%Z]) (times2 := [5; 2; 10]%Z) [true] [false; true; true]
           prior_schedule);
    [reflexivity | discriminate | reflexivity
    | reflexivity | discriminate | reflexivity | discriminate].
Defined.

Lemma getSavedTimeStep_after_setTimeSteps_witness :
  exists d' : TimeIncrements.data Z,
    TimeIncrements.setTimeSteps argsort_stable [5; 2; 10]%Z [false; true; true]
      prior_schedule = (inr tt, d') /\
    TimeIncrements.getSavedTimeStep d' =
    if forallb (fun b => b) [false; true; true]
    then TimeIncrements.getTimeStep d'
    else inl (KeyError "Save").
Proof.
  apply (getSavedTimeStep_after_setTimeSteps argsort_stable_contract
           (times := [5; 2; 10]%Z) [false; true; true] prior_schedule);
    [reflexivity | discriminate | reflexivity | discriminate].
Defined.

Lemma showTimeSteps_after_setTimeSteps_witness :
  exists d' : TimeIncrements.data Z,
    TimeIncrements.setTimeSteps argsort_stable [5; 2; 10]%Z [false; true; true]
      prior_schedule = (inr tt, d') /\
    TimeIncrements.showTimeSteps d' =
    inr (["0"; ""; "0"; ""]
         :: table_rows 0 1%Z
              (sorted_pairs argsort_stable [5; 2; 10]%Z [false; true; true])) /\
    List.length
      (table_rows 0 1%Z (sorted_pairs argsort_stable [5; 2; 10]%Z [false; true; true]))
    = List.length [5; 2; 10]%Z.
Proof.
  apply (showTimeSteps_after_setTimeSteps argsort_stable_contract
           (times := [5; 2; 10]%Z) [false; true; true] prior_schedule (start := 1%Z));
    [reflexivity | discriminate | reflexivity | reflexivity].
Defined.

Example showTimeSteps_rows :
  table_rows 0 1%Z (sorted_pairs argsort_stable [5; 2; 10]%Z [false; true; true])
  = [ ["1"; "1"; "2"; "true"]; ["2"; "3"; "5"; "false"]; ["3"; "5"; "10"; "true"] ].
Proof. reflexivity. Qed.

Lemma setTimeSteps_distinct_times_witness :
  NoDup [5; 2; 10]%Z /\
  TimeIncrements.setTimeSteps argsort_stable [5; 2; 10]%Z [false; true; true]
    prior_schedule =
  TimeIncrements.setTimeSteps argsort_reversing [5; 2; 10]%Z [false; true; true]
    prior_schedule.
Proof.
  assert (Hnd : NoDup [5; 2; 10]%Z)
    by (repeat constructor; simpl; intuition discriminate).
  split; [exact Hnd|].
  apply (setTimeSteps_distinct_times [false; true; true] prior_schedule
           argsort_stable_contract argsort_reversing_contract Hnd).
Defined.

Lemma read_keeps_well_formed_witness :
  well_formed (num := Z) [] /\
  TimeIncrements.read sample_node [] = (inr tt, sample_store) /\
  well_formed sample_store.
Proof.
  assert (Hwf : well_formed (num := Z) []) by concrete_well_formed.
  split; [exact Hwf|]. split; [reflexivity|].
  apply read_keeps_well_formed with (et := sample_node) (d := []) (r := inr tt);
    [reflexivity | exact Hwf].
Defined.

Lemma setTimeSteps_keeps_well_formed_witness :
  well_formed prior_schedule /\ well_formed rebuilt_schedule.
Proof.
  assert (Hwf : well_formed prior_schedule) by concrete_well_formed.
  split; [exact Hwf|].
  apply setTimeSteps_keeps_well_formed
    with (argsort := argsort_stable) (times := [5; 2; 10]%Z)
         (saved := [false; true; true]) (d := prior_schedule) (r := inr tt);
    [discriminate | reflexivity | exact Hwf].
Defined.

Lemma write_read_well_formed_witness :
  well_formed rebuilt_schedule /\
  exists et' : Element Z,
    TimeIncrements.__write__ rebuilt_schedule (fresh Z "TimeIncrements")
    = (inr tt, et') /\
    TimeIncrements.read et' [] = (inr tt, rebuilt_schedule).
Proof.
  assert (Hwf : well_formed rebuilt_schedule) by concrete_well_formed.
  split; [exact Hwf|].
  apply write_read_well_formed. exact Hwf.
Defined.

Lemma write_appends_children_witness :
  well_formed sample_store /\
  exists cs : list (Element Z),
    TimeIncrements.__write__ sample_store sample_node =
    (inr tt,
     mkElement (tag sample_node) (text sample_node) (attrib sample_node)
       (children sample_node ++ cs)) /\
    map (@tag Z) cs = Dict.keys sample_store.
Proof.
  assert (Hwf : well_formed sample_store) by concrete_well_formed.
  split; [exact Hwf|].
  apply write_appends_children. exact Hwf.
Defined.

Lemma write_Len_is_child_count_witness :
  well_formed sample_store /\
  exists len : string,
    Dict.get "Len" (attrib (written ("TimeSteps",
      VList [ [("Step", "1"); ("ElapsedTime", "1"); ("Save", "true")];
              [("Step", "1"); ("ElapsedTime", "2")] ]) : Element Z)) = Some len /\
    int len = inr 2%Z /\
    steps_of sample_store
    = Some [ [("Step", "1"); ("ElapsedTime", "1"); ("Save", "true")];
             [("Step", "1"); ("ElapsedTime", "2")] ].
Proof.
  assert (Hwf : well_formed sample_store) by concrete_well_formed.
  split; [exact Hwf|].
  apply write_Len_is_child_count
    with (d := sample_store) (t := "TimeIncrements")
         (et' := mkElement "TimeIncrements" VNone [] (map written sample_store));
    [exact Hwf | reflexivity | simpl; auto | reflexivity].
Defined.

Lemma read_ignores_attributes_witness :
  readable sample_node = true /\ readable sample_node_wrong_Len = true /\
  TimeIncrements.read sample_node prior_schedule
  = TimeIncrements.read sample_node_wrong_Len prior_schedule.
Proof.
  split; [reflexivity|]. split; [reflexivity|].
  apply read_ignores_attributes;
    [repeat constructor | reflexivity | reflexivity | discriminate].
Defined.

Lemma read_missing_Len_witness :
  exists d1 : TimeIncrements.data Z,
    TimeIncrements.read
      (mkElement "TimeIncrements" VNone [] [mkElement "Start" (VStr "0") [] []]) []
    = (inr tt, d1) /\
    TimeIncrements.read
      (mkElement "TimeIncrements" VNone []
         ([mkElement "Start" (VStr "0") [] []]
          ++ TimeSteps_without_Len :: [mkElement "Duration" VNone [] []])) []
    = (inl (KeyError "Len"),
       if Dict.mem "TimeSteps" d1 then d1 else Dict.set "TimeSteps" (VList []) d1).
Proof.
  apply read_missing_Len; [reflexivity | reflexivity | reflexivity | discriminate].
Defined.

Example read_missing_Len_store :
  TimeIncrements.read
    (mkElement "TimeIncrements" VNone []
       [ mkElement "Start" (VStr "0") [] [];
         TimeSteps_without_Len;
         mkElement "Duration" VNone [] [] ]) []
  = (inl (KeyError "Len"), [("Start", VStr "0"); ("TimeSteps", VList [])]).
Proof. reflexivity. Qed.

Lemma getters_after_read_witness :
  readable sample_node = true /\
  exists d' : TimeIncrements.data Z,
    TimeIncrements.read sample_node [] = (inr tt, d') /\
    TimeIncrements.getTimeStep d' =
    (if has_TimeSteps sample_node
     then comprehension TimeIncrements.elapsed_time (records_of sample_node)
     else inl (KeyError "TimeSteps")) /\
    TimeIncrements.getSavedTimeStep d' =
    (if has_TimeSteps sample_node
     then TimeIncrements.saved_times (records_of sample_node)
     else inl (KeyError "TimeSteps")).
Proof.
  split; [reflexivity|].
  apply getters_after_read. reflexivity.
Defined.

Example getters_on_sample :
  TimeIncrements.getTimeStep sample_store = inr [1; 2]%Z /\
  TimeIncrements.getSavedTimeStep sample_store = inl (KeyError "Save").
Proof. split; reflexivity. Qed.

Lemma setGeometry_without_ID_witness :
  Dict.get "ID" (Analysis.obj_data geometry_without_ID) = None /\
  exists s' : Analysis.self,
    Analysis.setGeometry geometry_without_ID sample_analysis
    = (inl (KeyError "ID"), s') /\
    Dict.get "Geometry" (Analysis.data s') = Some (Analysis.Ref geometry_without_ID) /\
    forall k, k <> "Geometry" ->
      Dict.get k (Analysis.data s') = Dict.get k (Analysis.data sample_analysis).
Proof.
  split; [reflexivity|].
  apply setGeometry_without_ID. reflexivity.
Defined.

Lemma setGeometry_last_call_wins_witness :
  exists s1 s2 : Analysis.self,
    Analysis.setGeometry sample_geometry sample_analysis = (inr tt, s1) /\
    Analysis.setGeometry other_geometry s1 = (inr tt, s2) /\
    Analysis.setGeometry other_geometry sample_analysis = (inr tt, s2).
Proof.
  apply setGeometry_last_call_wins; discriminate.
Defined.

Lemma showProblem_Context_iff_witness :
  Dict.get "Geometry" (Analysis.data with_geometry)
  = Some (Analysis.Ref sample_geometry) /\
  (Analysis.showProblem (fun _ => inr tt) (fun _ _ => inr tt) with_geometry =
   inl (KeyError "Analysis not properly defined. 'Context' is not available in data.")
   <-> Dict.get "Context" (Analysis.data with_geometry) = None).
Proof.
  split; [reflexivity|].
  apply showProblem_Context_iff with (geometry := sample_geometry);
    [reflexivity | reflexivity | discriminate].
Defined.
